(** * Weather data collector (Spain): the two Python report scripts

    A shallow embedding of
      - [scripts/python/audit_municipal_forecast_coverage.py] (module [Audit])
      - [scripts/python/summarize_barcelona_datasets.py]      (module [Summarize])
    together with the parts of the Python runtime they rest on (module
    [Py]: strings, [csv.DictReader], [gzip.open], [print], [sys.exit]),
    followed by the vocabulary of the statements (modules [Notions] and
    [MoreNotions]) and the proofs (modules [PyFacts], [AuditProofs],
    [SummarizeProofs], [AuditExtras], [SummarizeExtras]).

    Modelling choices.
    - A Python [str] is a sequence of Unicode code points: [list N].
      String literals of the scripts are written [py "..."].
    - [<] and [>] on [str] are the code-point-wise lexicographic comparisons.
    - A [set] of strings is a [gset], a [dict] keyed by strings a [gmap];
      where the scripts print a set or a dictionary they sort it first, so
      the iteration order is never observable.
    - A file on disk is what [csv.reader] yields from its text (a list of
      records) together with the way the bytes on disk encode that text
      (gzip or plain).  The CSV tokenizer itself is not modelled, and a
      file is decodable as a whole or not at all: an error shows at the
      first read.
    - [print] appends a line to standard output or standard error;
      [sys.exit] and uncaught exceptions are results of a small
      state-and-exception monad, which also logs the paths opened. *)

From Stdlib Require Import String Ascii.
From stdpp Require Import gmap list sorting pretty.

Local Open Scope N_scope.

(* ===================================================================== *)
(** * The Python runtime *)
(* ===================================================================== *)

Module Py.

(** ** Strings *)

Definition str := list N.

(** A literal: every character of the Rocq string becomes its code point. *)
Definition py (s : string) : str :=
  map N_of_ascii (list_ascii_of_string s).

(** [str(n)] / [f"{n}"] for a non-negative integer. *)
Definition str_of_nat (n : nat) : str := py (pretty n).

(** [a < b], [a > b], [a == b] on strings: lexicographic on code points,
    a proper prefix is smaller. *)
Fixpoint str_cmp (a b : str) : comparison :=
  match a, b with
  | [], [] => Eq
  | [], _ :: _ => Lt
  | _ :: _, [] => Gt
  | x :: a', y :: b' =>
      match N.compare x y with
      | Eq => str_cmp a' b'
      | c => c
      end
  end.

Definition str_lt (a b : str) : bool :=
  match str_cmp a b with Lt => true | _ => false end.
Definition str_gt (a b : str) : bool := str_lt b a.

(** The order behind [sorted]: [a <= b] is [not (b < a)]. *)
Definition str_le (a b : str) : Prop := str_lt b a = false.

Global Instance str_le_dec : RelDecision str_le.
Proof. intros a b. unfold str_le. apply _. Defined.

(** Truthiness of a string: [if s:] holds for a non-empty string. *)
Definition truthy (s : str) : bool :=
  match s with [] => false | _ :: _ => true end.

(** [str.isspace] on one code point: the white-space characters of
    CPython ([_PyUnicode_IsWhitespace]). *)
Definition isspace (c : N) : bool :=
  ((9 <=? c) && (c <=? 13)) || ((28 <=? c) && (c <=? 32))
  || (c =? 133) || (c =? 160) || (c =? 5760)
  || ((8192 <=? c) && (c <=? 8202))
  || (c =? 8232) || (c =? 8233) || (c =? 8239) || (c =? 8287)
  || (c =? 12288).

(** [s.lstrip()], [s.rstrip()], [s.strip()]. *)
Fixpoint lstrip (s : str) : str :=
  match s with
  | [] => []
  | c :: s' => if isspace c then lstrip s' else s
  end.
Definition rstrip (s : str) : str := reverse (lstrip (reverse s)).
Definition strip (s : str) : str := rstrip (lstrip s).

(** [s.zfill(width)]: left-pad with ['0']; a leading sign stays in front. *)
Definition zfill (width : nat) (s : str) : str :=
  if decide (width ≤ length s)%nat then s
  else
    let fill := replicate (width - length s) 48 in
    match s with
    | c :: rest =>
        if (c =? 43) || (c =? 45) then c :: fill ++ rest else fill ++ s
    | [] => fill
    end.

(** [s[:n]]. *)
Definition prefix_slice (n : nat) (s : str) : str := take n s.

(** [s.startswith(p)]. *)
Fixpoint startswith (p s : str) : bool :=
  match p, s with
  | [], _ => true
  | _ :: _, [] => false
  | x :: p', y :: s' => (x =? y) && startswith p' s'
  end.

(** [sep.join(xs)]. *)
Fixpoint join (sep : str) (xs : list str) : str :=
  match xs with
  | [] => []
  | [x] => x
  | x :: xs' => x ++ sep ++ join sep xs'
  end.

(** [sorted(xs)] on strings. *)
Definition sorted (xs : list str) : list str := merge_sort str_le xs.

(** [Path(root) / rel] for a resolved absolute [root]: only the file
    system root itself ends with a slash. *)
Definition joinpath (root rel : str) : str :=
  if decide (last root = Some 47) then root ++ rel else root ++ [47] ++ rel.

(** ** Files *)

(** One record of a CSV file, as [csv.reader] yields it; a blank line
    yields the empty record. *)
Definition record := list str.

(** How the bytes on disk encode the CSV text. *)
Inductive encoding := Gzip | Plain.

Record file := File { file_encoding : encoding; file_records : list record }.

(** The disk: the paths that exist, each with its file. *)
Definition disk := gmap str file.

(** [path.exists()]. *)
Definition path_exists (d : disk) (p : str) : bool :=
  match d !! p with Some _ => true | None => false end.

(** ** Results, exceptions and output *)

Inductive exn :=
| SystemExit (code : Z)
| FileNotFoundError (p : str)
| BadGzipFile
| UnicodeDecodeError.

Inductive result (A : Type) :=
| Ok (a : A)
| Raise (e : exn).
Global Arguments Ok {A} a.
Global Arguments Raise {A} e.

(** What a run leaves behind: the lines printed on standard output and on
    standard error, and the paths it opened, each in order. *)
Record io := IO { stdout : list str; stderr : list str; opened : list str }.

Definition io0 : io := IO [] [] [].

Definition M (A : Type) : Type := io → result A * io.

Global Instance M_ret : MRet M := λ A a s, (Ok a, s).
Global Instance M_bind : MBind M := λ A B k m s,
  match m s with
  | (Ok a, s') => k a s'
  | (Raise e, s') => (Raise e, s')
  end.
Definition raise {A} (e : exn) : M A := λ s, (Raise e, s).

(** [print(line)] and [print(line, file=sys.stderr)]. *)
Definition print (line : str) : M unit :=
  λ s, (Ok tt, IO (stdout s ++ [line]) (stderr s) (opened s)).
Definition eprint (line : str) : M unit :=
  λ s, (Ok tt, IO (stdout s) (stderr s ++ [line]) (opened s)).

(** The exceptions [except OSError] catches. *)
Definition is_OSError (e : exn) : bool :=
  match e with
  | FileNotFoundError _ | BadGzipFile => true
  | SystemExit _ | UnicodeDecodeError => false
  end.

(** [try: m  except OSError: handler]. *)
Definition try_except_OSError {A} (m handler : M A) : M A :=
  λ s, match m s with
       | (Raise e, s') => if is_OSError e then handler s' else (Raise e, s')
       | ok => ok
       end.

(** [for x in xs: body]. *)
Fixpoint for_each {A} (xs : list A) (body : A → M unit) : M unit :=
  match xs with
  | [] => mret tt
  | x :: xs' => body x;; for_each xs' body
  end.

(** [sys.exit(code)]. *)
Definition sys_exit {A} (code : Z) : M A := raise (SystemExit code).

(** The status the interpreter exits with: the code of [sys.exit], 1 for
    any other uncaught exception, and [on_return] when the script runs to
    its end. *)
Definition exit_status {A} (on_return : A → Z) (r : result A) : Z :=
  match r with
  | Ok a => on_return a
  | Raise (SystemExit c) => c
  | Raise _ => 1%Z
  end.

(** An open text file: the file behind it and the decoder reading it.
    Opening looks at no byte of the content. *)
Inductive handle :=
| GzipText (f : file)
| PlainText (f : file).

Definition log_open (p : str) : M unit :=
  λ s, (Ok tt, IO (stdout s) (stderr s) (opened s ++ [p])).

(** [gzip.open(path, "rt")]: opens the underlying file in binary mode and
    wraps it; the only error at this point is that of the underlying
    [open].  The gzip header is read with the first read. *)
Definition gzip_open (d : disk) (p : str) : M handle :=
  match d !! p with
  | None => raise (FileNotFoundError p)
  | Some f => log_open p;; mret (GzipText f)
  end.

(** [open(path, ...)] / [path.open("rt")]. *)
Definition text_open (d : disk) (p : str) : M handle :=
  match d !! p with
  | None => raise (FileNotFoundError p)
  | Some f => log_open p;; mret (PlainText f)
  end.

(** Reading the records through a handle.  The gzip decoder raises
    [BadGzipFile] on a first read that does not find the gzip magic
    number, and reports end of file on a file of no bytes (the only plain
    file without a record); the UTF-8 text decoder raises on the magic
    number of a gzip file. *)
Definition read_records (h : handle) : M (list record) :=
  match h with
  | GzipText (File Gzip recs) => mret recs
  | GzipText (File Plain []) => mret []
  | GzipText (File Plain (_ :: _)) => raise BadGzipFile
  | PlainText (File Plain recs) => mret recs
  | PlainText (File Gzip _) => raise UnicodeDecodeError
  end.

(** ** [csv.DictReader] *)

(** A row of a [DictReader]: field name to value, where a field missing
    from a short record has the value [None] ([restval]).  The surplus
    fields of a long record go under the key [None] ([restkey]), which no
    lookup by a field name reaches, and are left out. *)
Abbreviation row := (gmap str (option str)).

(** [dict(zip(fieldnames, rec))], then [d[key] = None] for the field names
    the record is too short for. *)
Definition zip_insert (d : row) (kv : str * option str) : row :=
  <[kv.1 := kv.2]> d.
Definition make_row (fieldnames : list str) (rec : record) : row :=
  let d := foldl zip_insert ∅ (zip fieldnames (Some <$> rec)) in
  foldl (λ d key, <[key := None]> d) d (drop (length rec) fieldnames).

(** [reader.fieldnames]: the first record, [None] for a file without one. *)
Definition fieldnames (recs : list record) : option (list str) := head recs.

(** The rows the reader iterates over: one per non-blank record after the
    first. *)
Definition dict_rows (recs : list record) : list row :=
  match recs with
  | [] => []
  | names :: body =>
      make_row names <$> filter (λ rec : record, rec ≠ []) body
  end.

(** [row.get(key)]. *)
Definition get (r : row) (key : str) : option str :=
  match r !! key with
  | Some v => v
  | None => None
  end.

End Py.


(* ===================================================================== *)
(** * audit_municipal_forecast_coverage.py *)
(* ===================================================================== *)

Module Audit.
Import Py.
Local Open Scope string_scope.
Local Open Scope list_scope.

Definition NEW_MUNICIPIOS : gset str :=
  list_to_set (py <$>
    [ "11903"  (* San Martin del Tesorillo *)
    ; "14901"  (* Fuente Carreteros *)
    ; "14902"  (* La Guijarrosa *)
    ; "18077"  (* Fornes *)
    ; "21902"  (* La Zarza-Perrunal *)
    ; "41904"  (* El Palmar de Troya *)
    ]).

Definition COMMUNAL_CODES : gset str :=
  list_to_set (py <$>
    [ "53000"; "53001"; "53002"; "53003"; "53004"; "53005"; "53006"; "53007"
    ; "53008"; "53009"; "53010"; "53011"; "53012"; "53013"; "53014"; "53015"
    ; "53016"; "53017"; "53018"; "53019"; "53020"; "53021"; "53022"; "53023"
    ; "53024"; "53025"; "53026"; "53027"; "53028"; "53029"; "53031"; "53032"
    ; "53033"; "53034"; "53035"; "53036"; "53037"; "53038"; "53039"; "53040"
    ; "53041"; "53042"; "53043"; "53044"; "53045"; "53046"; "53047"; "53048"
    ; "53049"; "53050"; "53051"; "53052"; "53053"; "53054"; "53055"; "53056"
    ; "53057"; "53058"; "53059"; "53060"; "53061"; "53062"; "53063"; "53064"
    ; "53065"; "53066"; "53067"; "53068"; "53069"; "53070"; "53071"; "53072"
    ; "53073"; "53074"; "53075"; "53076"; "53077"; "53078"; "53080"; "53081"
    ; "53083"; "54001"; "54002"; "54003"; "54004"; "54005"
    ]).

Definition EXPECTED_ABSENT : gset str := NEW_MUNICIPIOS ∪ COMMUNAL_CODES.

(** The identifier one [CUMUN] cell contributes (lines 52-58): nothing
    for a missing or blank cell, else the stripped cell padded to width 5. *)
Definition reference_id (raw : option str) : option str :=
  match raw with
  | None => None
  | Some raw =>
      let stripped := strip raw in
      if truthy stripped then Some (zfill 5 stripped) else None
  end.

(** One turn of the loop of [load_reference_ids]. *)
Definition reference_step (ids : gset str) (r : row) : gset str :=
  match reference_id (get r (py "CUMUN")) with
  | None => ids
  | Some i => {[ i ]} ∪ ids
  end.

(** [reader.fieldnames is None or column not in reader.fieldnames]. *)
Definition header_lacks (column : str) (recs : list record) : bool :=
  match fieldnames recs with
  | None => true
  | Some names => bool_decide (column ∉ names)
  end.

Definition load_reference_ids (d : disk) (path : str) : M (gset str) :=
  if negb (path_exists d path) then
    eprint (py "ERROR: reference file not found: " ++ path);;
    sys_exit 2
  else
    handle ← gzip_open d path;
    recs ← read_records handle;
    if header_lacks (py "CUMUN") recs then
      eprint (py "ERROR: reference file missing CUMUN header");;
      sys_exit 2
    else
      mret (foldl reference_step ∅ (dict_rows recs)).

(** One turn of the loop of [load_forecast_ids]: the cell is taken as it
    is, and skipped when missing or empty. *)
Definition forecast_step (ids : gset str) (r : row) : gset str :=
  match get r (py "municipio_id") with
  | Some mid => if truthy mid then {[ mid ]} ∪ ids else ids
  | None => ids
  end.

Definition load_forecast_ids (d : disk) (path : str) : M (gset str) :=
  if negb (path_exists d path) then
    eprint (py "ERROR: forecast file not found: " ++ path);;
    sys_exit 2
  else
    handle ← text_open d path;
    recs ← read_records handle;
    if header_lacks (py "municipio_id") recs then
      eprint (py "ERROR: forecast file missing municipio_id header");;
      sys_exit 2
    else
      mret (foldl forecast_step ∅ (dict_rows recs)).

(** Lines 83 and 84, for any expected-absent set. *)
Definition missing_of (ref_ids forecast_ids expected : gset str) : list str :=
  sorted (elements (ref_ids ∖ forecast_ids ∖ expected)).
Definition unexpected_present_of (forecast_ids expected : gset str) : list str :=
  sorted (elements (forecast_ids ∩ expected)).

(** The report of [main] once both sets are loaded (lines 83-105). *)
Definition report (ref_ids forecast_ids : gset str) : M Z :=
  let missing := missing_of ref_ids forecast_ids EXPECTED_ABSENT in
  let unexpected_present := unexpected_present_of forecast_ids EXPECTED_ABSENT in
  print (py "Reference municipalities: " ++ str_of_nat (size ref_ids));;
  print (py "Forecast municipalities: " ++ str_of_nat (size forecast_ids));;
  print (py "Ignored IDs (expected absent): "
         ++ str_of_nat (size EXPECTED_ABSENT));;
  (match unexpected_present with
   | _ :: _ =>
       print (py "WARNING: expected-absent IDs present in forecast data: "
              ++ join (py ", ") unexpected_present)
   | [] => mret tt
   end);;
  match missing with
  | _ :: _ =>
      print (py "ERROR: " ++ str_of_nat (length missing)
             ++ py " reference municipios missing from forecasts.");;
      print (py "Sample missing IDs: " ++ join (py ", ") (take 20 missing)
             ++ (if decide (20 < length missing)%nat then py "..." else []));;
      mret 1%Z
  | [] =>
      print (py "Municipal forecast coverage OK (excluding expected gaps).");;
      mret 0%Z
  end.

Section Paths.
(** [Path(__file__).resolve().parents[2]]: where the checkout lives. *)
Variable PROJECT_ROOT : str.

Definition REF_PATH : str :=
  joinpath PROJECT_ROOT (py "data/input/municipalities.csv.gz").
Definition FORECAST_PATH : str :=
  joinpath PROJECT_ROOT (py "data/output/daily_municipal_forecast.csv.gz").

Definition main (d : disk) : M Z :=
  ref_ids ← load_reference_ids d REF_PATH;
  forecast_ids ← load_forecast_ids d FORECAST_PATH;
  report ref_ids forecast_ids.

(** [sys.exit(main())], run from a fresh process: the exit status and
    what was printed and opened. *)
Definition run (d : disk) : Z * io :=
  let '(r, out) := main d io0 in
  (exit_status (λ code, code) r, out).

End Paths.

End Audit.

(* ===================================================================== *)
(** * summarize_barcelona_datasets.py *)
(* ===================================================================== *)

Module Summarize.
Import Py.
Local Open Scope string_scope.
Local Open Scope list_scope.

(** The objects a statistics dictionary holds. *)
Inductive value :=
| VNone
| VInt (n : nat)
| VStr (s : str)
| VDict (m : gmap str nat).

(** [Dict[str, object]]. *)
Abbreviation stats := (gmap str value).

Definition of_opt (o : option str) : value :=
  match o with Some s => VStr s | None => VNone end.

(** [open_text]: [gzip.open], and the plain [open] if that raised
    [OSError]. *)
Definition open_text (d : disk) (path : str) : M handle :=
  try_except_OSError (gzip_open d path) (text_open d path).

(** [x if lo is None or x < lo else lo], and the same with [>]. *)
Definition running_min (lo : option str) (x : str) : option str :=
  match lo with
  | None => Some x
  | Some m => if str_lt x m then Some x else Some m
  end.
Definition running_max (hi : option str) (x : str) : option str :=
  match hi with
  | None => Some x
  | Some m => if str_gt x m then Some x else Some m
  end.

(** [per_day[day].add(key)] on a [defaultdict(set)]. *)
Definition add_key (per_day : gmap str (gset (option str)))
    (day : str) (key : option str) : gmap str (gset (option str)) :=
  <[day := {[ key ]} ∪ default ∅ (per_day !! day)]> per_day.

(** [{day: len(stations) for day, stations in per_day.items()}]. *)
Definition per_day_counts (per_day : gmap str (gset (option str)))
    : gmap str nat :=
  size <$> per_day.

(** The local variables of [summarise_daily_file] and one turn of its loop. *)
Module Daily.
Record locals := Locals {
  per_day : gmap str (gset (option str));
  min_date : option str;
  max_date : option str;
  total_rows : nat }.

Definition init : locals := Locals ∅ None None 0.

Definition step (date_col station_col : str) (s : locals) (r : row) : locals :=
  let total_rows := S (total_rows s) in
  let date_val := get r date_col in
  let station_val := get r station_col in
  match date_val with
  | Some ((_ :: _) as date_val) =>
      Locals (add_key (per_day s) date_val station_val)
             (running_min (min_date s) date_val)
             (running_max (max_date s) date_val)
             total_rows
  | _ => Locals (per_day s) (min_date s) (max_date s) total_rows
  end.

Definition loop (date_col station_col : str) (rows : list row) : locals :=
  foldl (step date_col station_col) init rows.

Definition returned (s : locals) : stats :=
  <[py "rows" := VInt (total_rows s)]>
  (<[py "min_date" := of_opt (min_date s)]>
  (<[py "max_date" := of_opt (max_date s)]>
  (<[py "per_day_counts" := VDict (per_day_counts (per_day s))]> ∅))).
End Daily.

Definition summarise_daily_file (d : disk) (path date_col station_col : str)
    : M stats :=
  handle ← open_text d path;
  recs ← read_records handle;
  mret (Daily.returned (Daily.loop date_col station_col (dict_rows recs))).

(** The local variables of [summarise_hourly_file] and one turn of its loop. *)
Module Hourly.
Record locals := Locals {
  per_day : gmap str (gset (option str));
  min_ts : option str;
  max_ts : option str;
  total_rows : nat }.

Definition init : locals := Locals ∅ None None 0.

Definition step (s : locals) (r : row) : locals :=
  let total_rows := S (total_rows s) in
  let fint := get r (py "fint") in
  let station := get r (py "idema") in
  match fint with
  | Some ((_ :: _) as fint) =>
      let day := prefix_slice 10 fint in
      Locals (add_key (per_day s) day station)
             (running_min (min_ts s) fint)
             (running_max (max_ts s) fint)
             total_rows
  | _ => Locals (per_day s) (min_ts s) (max_ts s) total_rows
  end.

Definition loop (rows : list row) : locals := foldl step init rows.

Definition returned (s : locals) : stats :=
  <[py "rows" := VInt (total_rows s)]>
  (<[py "min_ts" := of_opt (min_ts s)]>
  (<[py "max_ts" := of_opt (max_ts s)]>
  (<[py "per_day_counts" := VDict (per_day_counts (per_day s))]> ∅))).
End Hourly.

Definition summarise_hourly_file (d : disk) (path : str) : M stats :=
  handle ← open_text d path;
  recs ← read_records handle;
  mret (Hourly.returned (Hourly.loop (dict_rows recs))).

(** The local variables of [summarise_forecast] and one turn of its loop. *)
Module Forecast.
Record locals := Locals {
  per_day : gmap str nat;
  min_date : option str;
  max_date : option str;
  collected_at : option str;
  total_rows : nat }.

Definition init : locals := Locals ∅ None None None 0.

(** [if ca and (collected_at is None or ca > collected_at): collected_at = ca]. *)
Definition latest (collected_at ca : option str) : option str :=
  match ca with
  | Some ((_ :: _) as ca) =>
      match collected_at with
      | None => Some ca
      | Some old => if str_gt ca old then Some ca else Some old
      end
  | _ => collected_at
  end.

Definition step (s : locals) (r : row) : locals :=
  let total_rows := S (total_rows s) in
  let date_val := get r (py "fecha") in
  let ca := get r (py "collected_at") in
  match date_val with
  | Some ((_ :: _) as date_val) =>
      Locals (<[date_val := S (default 0%nat (per_day s !! date_val))]> (per_day s))
             (running_min (min_date s) date_val)
             (running_max (max_date s) date_val)
             (latest (collected_at s) ca)
             total_rows
  | _ =>
      Locals (per_day s) (min_date s) (max_date s)
             (latest (collected_at s) ca) total_rows
  end.

Definition loop (rows : list row) : locals := foldl step init rows.

Definition returned (s : locals) : stats :=
  <[py "rows" := VInt (total_rows s)]>
  (<[py "min_date" := of_opt (min_date s)]>
  (<[py "max_date" := of_opt (max_date s)]>
  (<[py "latest_collected_at" := of_opt (collected_at s)]>
  (<[py "per_day_rows" := VDict (per_day s)]> ∅)))).
End Forecast.

Definition summarise_forecast (d : disk) (path : str) : M stats :=
  handle ← open_text d path;
  recs ← read_records handle;
  mret (Forecast.returned (Forecast.loop (dict_rows recs))).

(** [str(v)] inside an f-string. *)
Definition str_of_value (v : value) : str :=
  match v with
  | VNone => py "None"
  | VInt n => str_of_nat n
  | VStr s => s
  | VDict _ => []   (* a dictionary is never formatted by the script *)
  end.

(** [<] on the [(day, value)] tuples that [sorted(per_day.items())]
    compares: the first components decide unless they are equal. *)
Definition item_lt (a b : str * nat) : bool :=
  if decide (a.1 = b.1) then bool_decide (a.2 < b.2)%nat else str_lt a.1 b.1.
Definition item_le (a b : str * nat) : Prop := item_lt b a = false.

Global Instance item_le_dec : RelDecision item_le.
Proof. intros a b. unfold item_le. apply _. Defined.

Definition sorted_items (per_day : gmap str nat) : list (str * nat) :=
  merge_sort item_le (map_to_list per_day).

(** [xs[-n:]]; with [n = 0] the slice [xs[-0:]] is the whole list. *)
Definition last_slice {A} (n : nat) (xs : list A) : list A :=
  match n with
  | O => xs
  | _ => drop (length xs - n) xs
  end.

Definition summary_keys : list str :=
  py <$> ["rows"; "min_date"; "max_date"; "min_ts"; "max_ts";
          "latest_collected_at"].

Definition emit_summary (title : str) (st : stats) (last_n : nat) : M unit :=
  print (py "=== " ++ title ++ py " ===");;
  for_each summary_keys (λ key,
    match st !! key with
    | Some VNone | None => mret tt
    | Some v => print (key ++ py ": " ++ str_of_value v)
    end);;
  (let per_day_key :=
     if decide (is_Some (st !! py "per_day_counts"))
     then py "per_day_counts" else py "per_day_rows" in
   match st !! per_day_key with
   | Some (VDict per_day) =>
       if decide (per_day = ∅) then mret tt
       else
         let recent := last_slice last_n (sorted_items per_day) in
         let label :=
           if decide (per_day_key = py "per_day_counts")
           then py "stations_per_day" else py "rows_per_day" in
         print (label ++ py " (last " ++ str_of_nat (length recent)
                ++ py " days):");;
         for_each recent (λ '(day, value),
           print (py "  " ++ day ++ py ": " ++ str_of_nat value))
   | _ => mret tt
   end);;
  print [].

(** One turn of the loop of [main]. *)
Definition main_step (d : disk) (target : str * str) : M unit :=
  let '(label, path) := target in
  if negb (path_exists d path) then
    print (py "=== " ++ label ++ py " ===");;
    print (py "File not found: " ++ path);;
    print []
  else
    st ← (if startswith (py "Hourly") label then summarise_hourly_file d path
          else if startswith (py "Forecast") label then summarise_forecast d path
          else summarise_daily_file d path (py "fecha") (py "indicativo"));
    emit_summary label st 7.

Definition main (d : disk) (paths : list (str * str)) : M unit :=
  for_each paths (main_step d).

(** The parsed command line. *)
Record args := Args {
  daily_historical : str;
  hourly : str;
  daily_current : str;
  forecast : str }.

Definition targets (a : args) : list (str * str) :=
  [ (py "Historical Daily", daily_historical a);
    (py "Hourly", hourly a);
    (py "Current Daily", daily_current a);
    (py "Forecast", forecast a) ].

(** The script run from a fresh process on parsed arguments: it never
    calls [sys.exit], so it exits with 0 unless an exception escapes. *)
Definition run (d : disk) (paths : list (str * str)) : Z * io :=
  let '(r, out) := main d paths io0 in
  (exit_status (λ _, 0%Z) r, out).

End Summarize.

(* ===================================================================== *)
(** * Vocabulary of the statements *)
(* ===================================================================== *)

Module Notions.
Import Py Audit Summarize.
Local Open Scope string_scope.
Local Open Scope list_scope.

(** ** Strings *)

(** The character at one end of a string, if any, is not white space. *)
Definition no_space_at (o : option N) : Prop :=
  ∀ c, o = Some c → isspace c = false.

(** One of the characters [0] to [9]. *)
Definition is_digit (c : N) : bool := N.leb 48 c && N.leb c 57.

(** Strictly ascending in the order of [<] on strings. *)
Definition ascending (l : list str) : Prop :=
  StronglySorted (λ a b, str_lt a b = true) l.

(** ** The coverage auditor *)

(** The warning line of the report. *)
Definition is_warning (line : str) : bool := startswith (py "WARNING") line.

(** The lines [main] prints once both sets are loaded. *)
Definition report_lines (R F : gset str) : list str :=
  let missing := missing_of R F EXPECTED_ABSENT in
  let unexpected_present := unexpected_present_of F EXPECTED_ABSENT in
  [ py "Reference municipalities: " ++ str_of_nat (size R);
    py "Forecast municipalities: " ++ str_of_nat (size F);
    py "Ignored IDs (expected absent): " ++ str_of_nat (size EXPECTED_ABSENT) ]
  ++ match unexpected_present with
     | [] => []
     | _ :: _ =>
         [ py "WARNING: expected-absent IDs present in forecast data: "
           ++ join (py ", ") unexpected_present ]
     end
  ++ match missing with
     | [] => [ py "Municipal forecast coverage OK (excluding expected gaps)." ]
     | _ :: _ =>
         [ py "ERROR: " ++ str_of_nat (length missing)
           ++ py " reference municipios missing from forecasts.";
           py "Sample missing IDs: " ++ join (py ", ") (take 20 missing)
           ++ (if decide (20 < length missing)%nat then py "..." else []) ]
     end.

Definition report_code (R F : gset str) : Z :=
  match missing_of R F EXPECTED_ABSENT with [] => 0%Z | _ :: _ => 1%Z end.

(** Whether the reference file fails the checks of [load_reference_ids]:
    it does not exist, or it is read and no [CUMUN] is in its header. *)
Definition reference_fails (ref_file : option file) : Prop :=
  ref_file = None
  ∨ (∃ recs, ref_file = Some (File Gzip recs)
             ∧ (∀ names, fieldnames recs = Some names → py "CUMUN" ∉ names)).

Definition audit_example_root : str := py "/srv/weather".

(** The example of the specification: [CUMUN] values 1, 01234 and 5000
    against [municipio_id] values 00001 and 05000. *)
Definition audit_example_disk : disk :=
  <[REF_PATH audit_example_root :=
      File Gzip [[py "CUMUN"]; [py "1"]; [py "01234"]; [py "5000"]]]>
  (<[FORECAST_PATH audit_example_root :=
      File Plain [[py "municipio_id"]; [py "00001"]; [py "05000"]]]> ∅).

(** ** The dataset summarizer *)

(** What the running minimum and maximum of the loops end at, over the
    values met in order. *)
Definition min_of (xs : list str) : option str := foldl running_min None xs.

Definition max_of (xs : list str) : option str := foldl running_max None xs.

(** [m] is the least, respectively the greatest, of [xs] under [<]. *)
Definition is_min_of (xs : list str) (m : str) : Prop :=
  m ∈ xs ∧ Forall (str_le m) xs.

Definition is_max_of (xs : list str) (m : str) : Prop :=
  m ∈ xs ∧ Forall (λ x, str_le x m) xs.

(** A field of a summary holds the least (greatest) of [xs], and [None]
    when there is none. *)
Definition holds_min (xs : list str) (v : option value) : Prop :=
  match v with
  | Some (VStr m) => is_min_of xs m
  | Some VNone => xs = []
  | _ => False
  end.

Definition holds_max (xs : list str) (v : option value) : Prop :=
  match v with
  | Some (VStr m) => is_max_of xs m
  | Some VNone => xs = []
  | _ => False
  end.

(** The non-empty value a row has in a column, if any: what the loops
    test with [if not date_val] and [if not fint]. *)
Definition date_of (col : str) (r : row) : option str :=
  match get r col with
  | Some ((_ :: _) as v) => Some v
  | _ => None
  end.

(** The day an hourly row belongs to. *)
Definition hour_day (r : row) : option str :=
  prefix_slice 10 <$> date_of (py "fint") r.

(** The non-empty values of a column, in the order of the rows. *)
Definition column_values (col : str) (rows : list row) : list str :=
  omap (date_of col) rows.

(** The station cell is missing ([None]) or empty. *)
Definition lacks_value (key : option str) : Prop :=
  key = None ∨ key = Some [].

Global Instance lacks_value_dec key : Decision (lacks_value key).
Proof. unfold lacks_value. apply _. Defined.

Section by_day.
Context (day_of : row → option str) (key_of : row → option str).

(** The rows of one day. *)
Definition rows_of (day : str) (rows : list row) : list row :=
  filter (λ r, day_of r = Some day) rows.

(** The rows that have a day. *)
Definition dated (rows : list row) : list row :=
  filter (λ r, is_Some (day_of r)) rows.

(** The per-day sets of keys the daily and hourly loops build ... *)
Definition group_step (per_day : gmap str (gset (option str))) (r : row)
    : gmap str (gset (option str)) :=
  match day_of r with
  | Some day => add_key per_day day (key_of r)
  | None => per_day
  end.

Definition group (rows : list row) : gmap str (gset (option str)) :=
  foldl group_step ∅ rows.

(** ... and the per-day row counts the forecast loop builds. *)
Definition tally_step (per_day : gmap str nat) (r : row) : gmap str nat :=
  match day_of r with
  | Some day => <[day := S (default 0%nat (per_day !! day))]> per_day
  | None => per_day
  end.

Definition tally (rows : list row) : gmap str nat := foldl tally_step ∅ rows.
End by_day.

(** The sum of all per-day values of a summary. *)
Definition total (per_day : gmap str nat) : nat :=
  map_fold (λ _ n acc, (n + acc)%nat) 0%nat per_day.

(** The three lines [main] prints for a path that does not exist. *)
Definition not_found_notice (label path : str) : list str :=
  [py "=== " ++ label ++ py " ==="; py "File not found: " ++ path; []].

(** A computation that returns, whatever was printed before. *)
Definition returns (m : M unit) : Prop := ∀ s, ∃ s', m s = (Ok tt, s').

(** ** Example files *)

Definition plain_example_records : list record :=
  [ [py "fecha"; py "indicativo"]; [py "2024-01-01"; py "0076"] ].

Definition plain_example_disk : disk :=
  {[ py "daily.csv" := File Plain plain_example_records ]}.

(** The example of the specification: three rows dated 2024-01-01 and one
    dated 2024-01-02. *)
Definition forecast_example_records : list record :=
  [ [py "fecha"; py "municipio_id"; py "collected_at"];
    [py "2024-01-01"; py "08019"; py "2024-01-01T06:00:00"];
    [py "2024-01-02"; py "08019"; py "2024-01-01T06:00:00"];
    [py "2024-01-01"; py "08015"; py "2024-01-01T07:30:00"];
    [py "2024-01-01"; py "08101"; []] ].

Definition forecast_example_disk : disk :=
  {[ py "forecast.csv.gz" := File Gzip forecast_example_records ]}.

Definition daily_example_records : list record :=
  [ [py "fecha"; py "indicativo"; py "tmed"];
    [py "2024-01-01"; py "0076"; py "11.2"];
    [py "2024-01-01"; py "0201D"; py "10.9"];
    [py "2024-01-01"; py "0076"; py "11.4"];
    [py "2024-01-02"; py "0076"; py "12.0"] ].

Definition daily_example_disk : disk :=
  {[ py "daily.csv.gz" := File Gzip daily_example_records ]}.

(** A day of two rows, one with an empty station cell and one too short
    to have a station cell. *)
Definition absent_example_records : list record :=
  [ [py "fecha"; py "indicativo"]; [py "2024-01-01"; []]; [py "2024-01-01"] ].

Definition absent_example_disk : disk :=
  {[ py "daily.csv.gz" := File Gzip absent_example_records ]}.

Definition summary_example_args : args :=
  Args (py "data/output/daily_station_historical_barcelona.csv.gz")
       (py "data/output/hourly_station_ongoing_barcelona.csv.gz")
       (py "data/output/daily_station_current_barcelona.csv.gz")
       (py "data/output/daily_municipal_forecast_barcelona.csv.gz").

(** The command line [--daily-current daily.csv], the other three paths
    left at their defaults. *)
Definition plain_example_args : args :=
  Args (py "data/output/daily_station_historical_barcelona.csv.gz")
       (py "data/output/hourly_station_ongoing_barcelona.csv.gz")
       (py "daily.csv")
       (py "data/output/daily_municipal_forecast_barcelona.csv.gz").

(** Only the current daily file and the forecast file are there. *)
Definition summary_example_disk : disk :=
  <[daily_current summary_example_args := File Gzip daily_example_records]>
  (<[forecast summary_example_args := File Gzip forecast_example_records]> ∅).

End Notions.

(* ===================================================================== *)
(** * Further vocabulary *)
(* ===================================================================== *)

Module MoreNotions.
Import Py Audit Summarize Notions.
Local Open Scope string_scope.
Local Open Scope list_scope.



(** The number of distinct station values among rows, a missing cell
    and an empty cell each being a value. *)
Definition distinct_keys (key_col : str) (rs : list row) : nat :=
  size (list_to_set ((λ r, get r key_col) <$> rs) : gset (option str)).

(** An hourly file of two stations over two days. *)
Definition hourly_example_records : list record :=
  [ [py "idema"; py "fint"; py "ta"];
    [py "0076"; py "2024-01-01T10:00:00"; py "11.2"];
    [py "0201D"; py "2024-01-01T10:00:00"; py "10.9"];
    [py "0076"; py "2024-01-01T11:00:00"; py "11.9"];
    [py "0076"; py "2024-01-02T00:00:00"; py "9.1"] ].

Definition hourly_example_disk : disk :=
  {[ py "hourly.csv.gz" := File Gzip hourly_example_records ]}.

(** The lines [emit_summary] prints: the header, the fields that are
    there and not [None], the per-day block, a blank line. *)
Definition field_line (st : stats) (key : str) : option str :=
  match st !! key with
  | Some VNone | None => None
  | Some v => Some (key ++ py ": " ++ str_of_value v)
  end.

Definition per_day_lines (st : stats) (last_n : nat) : list str :=
  let per_day_key :=
    if decide (is_Some (st !! py "per_day_counts"))
    then py "per_day_counts" else py "per_day_rows" in
  match st !! per_day_key with
  | Some (VDict per_day) =>
      if decide (per_day = ∅) then []
      else
        let recent := last_slice last_n (sorted_items per_day) in
        let label :=
          if decide (per_day_key = py "per_day_counts")
          then py "stations_per_day" else py "rows_per_day" in
        (label ++ py " (last " ++ str_of_nat (length recent) ++ py " days):")
        :: ((λ '(day, value), py "  " ++ day ++ py ": " ++ str_of_nat value)
            <$> recent)
  | _ => []
  end.

Definition emit_lines (title : str) (st : stats) (last_n : nat) : list str :=
  [py "=== " ++ title ++ py " ==="]
  ++ omap (field_line st) summary_keys
  ++ per_day_lines st last_n
  ++ [[]].

(** Strictly ascending by day. *)
Definition days_ascending (items : list (str * nat)) : Prop :=
  StronglySorted (λ a b, str_lt a.1 b.1 = true) items.

End MoreNotions.

(* ===================================================================== *)
(** * Facts about the runtime *)
(* ===================================================================== *)

Module PyFacts.
Import Py Notions.

(** ** The order on strings *)

Lemma str_cmp_refl a : str_cmp a a = Eq.
Proof. induction a as [|x a IH]; simpl; [done|]. by rewrite N.compare_refl. Qed.

Lemma str_cmp_eq a b : str_cmp a b = Eq → a = b.
Proof.
  revert b; induction a as [|x a IH]; intros [|y b]; simpl; try done.
  destruct (N.compare_spec x y) as [->| |]; try done.
  intros H. by rewrite (IH _ H).
Qed.

Lemma str_cmp_antisym a b : str_cmp b a = CompOpp (str_cmp a b).
Proof.
  revert b; induction a as [|x a IH]; intros [|y b]; simpl; try done.
  rewrite (N.compare_antisym x y).
  destruct (N.compare x y); simpl; auto.
Qed.

Lemma str_cmp_lt_trans a b c :
  str_cmp a b = Lt → str_cmp b c = Lt → str_cmp a c = Lt.
Proof.
  revert b c; induction a as [|x a IH]; intros [|y b] [|z c]; simpl; try done.
  destruct (N.compare_spec x y) as [->| |]; try done.
  - destruct (N.compare_spec y z) as [->| |]; try done. apply IH.
  - destruct (N.compare_spec y z) as [->| |]; try done; intros _ _.
    + by destruct (N.compare_spec x z) as [->| |]; try lia.
    + by destruct (N.compare_spec x z) as [->| |]; try lia.
Qed.

Lemma str_lt_irrefl a : str_lt a a = false.
Proof. unfold str_lt. by rewrite str_cmp_refl. Qed.

Lemma str_lt_asym a b : str_lt a b = true → str_lt b a = false.
Proof.
  unfold str_lt. rewrite (str_cmp_antisym a b).
  by destruct (str_cmp a b).
Qed.

Lemma str_lt_trans a b c : str_lt a b = true → str_lt b c = true → str_lt a c = true.
Proof.
  unfold str_lt. intros Hab Hbc.
  destruct (str_cmp a b) eqn:E1; try done.
  destruct (str_cmp b c) eqn:E2; try done.
  by rewrite (str_cmp_lt_trans _ _ _ E1 E2).
Qed.

(** [a <= b] is [a < b or a == b]. *)
Lemma str_le_lt_eq a b : str_le a b ↔ str_lt a b = true ∨ a = b.
Proof.
  unfold str_le, str_lt. rewrite (str_cmp_antisym a b). split.
  - destruct (str_cmp a b) eqn:E; simpl; try done; auto.
    right. by apply str_cmp_eq.
  - intros [H| ->]; [by destruct (str_cmp a b)|by rewrite str_cmp_refl].
Qed.

Global Instance str_le_refl : Reflexive str_le.
Proof. intros a. apply str_lt_irrefl. Qed.

Global Instance str_le_total : Total str_le.
Proof.
  intros a b. unfold str_le.
  destruct (str_lt b a) eqn:E; [right; by apply str_lt_asym|by left].
Qed.

Global Instance str_le_trans : Transitive str_le.
Proof.
  intros a b c [Hab| ->]%str_le_lt_eq [Hbc| ->]%str_le_lt_eq;
    apply str_le_lt_eq; eauto using str_lt_trans.
Qed.

Global Instance str_le_antisym : AntiSymm (=) str_le.
Proof.
  intros a b [Hab| ->]%str_le_lt_eq Hba; [|done].
  unfold str_le in Hba. congruence.
Qed.

(** ** [strip] and [zfill] *)

Lemma lstrip_fixed s : no_space_at (head s) → lstrip s = s.
Proof.
  destruct s as [|c s]; [done|]. intros H. simpl.
  by rewrite (H c eq_refl).
Qed.

Lemma lstrip_head s : no_space_at (head (lstrip s)).
Proof.
  induction s as [|c s IH]; simpl; [by intros ?|].
  destruct (isspace c) eqn:E; [done|]. intros c' [= <-]. done.
Qed.

Lemma lstrip_app xs ys :
  lstrip (xs ++ ys) =
  match lstrip xs with [] => lstrip ys | _ :: _ => lstrip xs ++ ys end.
Proof.
  induction xs as [|c xs IH]; simpl; [by destruct (lstrip ys)|].
  destruct (isspace c); [done|done].
Qed.

Lemma rstrip_cons c s :
  rstrip (c :: s) =
  match rstrip s with
  | [] => if isspace c then [] else [c]
  | _ :: _ => c :: rstrip s
  end.
Proof.
  unfold rstrip. rewrite reverse_cons, lstrip_app.
  destruct (lstrip (reverse s)) as [|x l] eqn:E; simpl.
  - by destruct (isspace c).
  - rewrite app_comm_cons, reverse_snoc.
    destruct (reverse (x :: l)) eqn:E'; [|done].
    apply (f_equal reverse) in E'. by rewrite reverse_involutive in E'.
Qed.

Lemma rstrip_fixed s : no_space_at (last s) → rstrip s = s.
Proof.
  intros H. unfold rstrip. rewrite lstrip_fixed, reverse_involutive; [done|].
  intros c Hc. apply H. rewrite <- (reverse_involutive s).
  destruct (reverse s) as [|x l]; [done|].
  rewrite reverse_cons, last_snoc. by simplify_eq/=.
Qed.

Lemma rstrip_last s : no_space_at (last (rstrip s)).
Proof.
  unfold rstrip. pose proof (lstrip_head (reverse s)) as H.
  destruct (lstrip (reverse s)) as [|x l]; [by intros ?|].
  rewrite reverse_cons, last_snoc. intros c [= <-]. by apply H.
Qed.

Lemma rstrip_head s : rstrip s ≠ [] → head (rstrip s) = head s.
Proof.
  destruct s as [|c s]; [done|]. rewrite rstrip_cons.
  destruct (rstrip s); [|done]. by destruct (isspace c).
Qed.

Lemma strip_ends s :
  no_space_at (head (strip s)) ∧ no_space_at (last (strip s)).
Proof.
  unfold strip. split; [|apply rstrip_last].
  destruct (decide (rstrip (lstrip s) = [])) as [->|Hne]; [by intros ?|].
  rewrite rstrip_head by done. apply lstrip_head.
Qed.

Lemma strip_fixed s :
  no_space_at (head s) → no_space_at (last s) → strip s = s.
Proof.
  intros Hh Hl. unfold strip. rewrite (lstrip_fixed s Hh). by apply rstrip_fixed.
Qed.

Lemma zfill_length w s : (w ≤ length (zfill w s))%nat.
Proof.
  unfold zfill. case_decide; [done|].
  destruct s as [|c rest]; simpl in *.
  - rewrite length_replicate. lia.
  - destruct ((c =? 43) || (c =? 45)); simpl;
      rewrite length_app, length_replicate; simpl; lia.
Qed.

Lemma zfill_fixed w s : (w ≤ length s)%nat → zfill w s = s.
Proof. intros H. unfold zfill. by case_decide. Qed.

Lemma last_fill n : last (replicate (S n) (48 : N)) = Some 48.
Proof. by rewrite replicate_S_end, last_snoc. Qed.

Lemma zfill_ends w s :
  no_space_at (head s) → no_space_at (last s) →
  no_space_at (head (zfill w s)) ∧ no_space_at (last (zfill w s)).
Proof.
  intros Hh Hl. unfold zfill. case_decide as Hw; [done|].
  assert (∃ n, (w - length s)%nat = S n) as [n ->]
    by (exists (w - length s - 1)%nat; lia).
  destruct s as [|c rest].
  - rewrite last_fill. split; by intros ? [= <-].
  - destruct ((c =? 43) || (c =? 45)).
    + split; [done|]. rewrite app_comm_cons, last_app.
      rewrite last_cons in Hl. destruct (last rest); [done|].
      rewrite last_cons, last_fill. by intros ? [= <-].
    + split; [by intros ? [= <-]|]. rewrite last_app.
      by destruct (last (c :: rest)) eqn:E; [|apply last_None in E].
Qed.

(** ** Runs *)

(** Unfolds the monad of a run down to the final result and output. *)
Ltac run_io :=
  unfold mbind, M_bind, mret, M_ret, print, eprint, sys_exit, raise, log_open;
  cbv beta iota; cbn [stdout stderr opened].

End PyFacts.

(* ===================================================================== *)
(** * The coverage auditor *)
(* ===================================================================== *)

Module AuditProofs.
Import Py Notions PyFacts Audit.
Local Open Scope string_scope.
Local Open Scope list_scope.

(** ** Sorted listings of a set *)

Lemma sorted_elem_of (X : gset str) x : x ∈ sorted (elements X) ↔ x ∈ X.
Proof. unfold sorted. by rewrite merge_sort_Permutation, elem_of_elements. Qed.

Lemma sorted_NoDup (X : gset str) : NoDup (sorted (elements X)).
Proof. unfold sorted. rewrite merge_sort_Permutation. apply NoDup_elements. Qed.

Lemma strict_of_NoDup (l : list str) :
  StronglySorted str_le l → NoDup l → ascending l.
Proof.
  induction 1 as [|a l Hl IH Ha]; intros Hnd; [constructor|].
  apply NoDup_cons in Hnd as [Hnotin Hnd].
  constructor; [by apply IH|].
  rewrite Forall_forall in Ha. rewrite Forall_forall. intros b Hb.
  pose proof (Ha b Hb) as Hab.
  apply str_le_lt_eq in Hab as [Hlt| ->]; [done|]. by destruct Hnotin.
Qed.

Lemma sorted_ascending (X : gset str) : ascending (sorted (elements X)).
Proof.
  apply strict_of_NoDup; [|apply sorted_NoDup].
  unfold sorted. apply (StronglySorted_merge_sort str_le).
Qed.

(** C1. For all sets R, F and E, [missing] lists exactly the elements of
    (R - F) - E and [unexpected_present] exactly those of F ∩ E, both in
    strictly ascending order; hence an identifier of R that is in E is
    never in [missing], whatever F is. *)
Theorem missing_and_unexpected_spec (R F E : gset str) :
  (∀ x, x ∈ missing_of R F E ↔ x ∈ (R ∖ F) ∖ E)
  ∧ (∀ x, x ∈ unexpected_present_of F E ↔ x ∈ F ∩ E)
  ∧ ascending (missing_of R F E)
  ∧ ascending (unexpected_present_of F E)
  ∧ (∀ x, x ∈ R → x ∈ E → x ∉ missing_of R F E).
Proof.
  unfold missing_of, unexpected_present_of.
  split_and!; try apply sorted_ascending.
  - intros x. apply sorted_elem_of.
  - intros x. apply sorted_elem_of.
  - intros x _ HE. rewrite sorted_elem_of, !elem_of_difference. tauto.
Qed.

(** The example of the specification, with an expected-absent set that
    holds 00001. *)
Example missing_and_unexpected_example :
  let R := list_to_set (py <$> ["00001"; "01234"; "05000"]) in
  let F := list_to_set (py <$> ["00001"; "05000"]) in
  let E := {[ py "00001" ]} in
  missing_of R F E = [py "01234"]
  ∧ unexpected_present_of F E = [py "00001"].
Proof. by vm_compute. Qed.

(** ** The exit status *)

Lemma report_run R F s :
  report R F s =
  (Ok (report_code R F),
   IO (stdout s ++ report_lines R F) (stderr s) (opened s)).
Proof.
  unfold report, report_code, report_lines.
  destruct (unexpected_present_of F EXPECTED_ABSENT),
           (missing_of R F EXPECTED_ABSENT);
    run_io; by rewrite <- ?app_assoc.
Qed.

Lemma report_lines_warning R F :
  existsb is_warning (report_lines R F) =
  match unexpected_present_of F EXPECTED_ABSENT with
  | [] => false | _ :: _ => true end.
Proof.
  unfold report_lines.
  destruct (unexpected_present_of F EXPECTED_ABSENT),
           (missing_of R F EXPECTED_ABSENT); reflexivity.
Qed.

Lemma main_loaded root d R F s1 s2 :
  load_reference_ids d (REF_PATH root) io0 = (Ok R, s1) →
  load_forecast_ids d (FORECAST_PATH root) s1 = (Ok F, s2) →
  main root d io0 = report R F s2.
Proof.
  intros H1 H2. unfold main, mbind, M_bind. by rewrite H1, H2.
Qed.

(** What the two loaders do, by the state of the disk. *)
Lemma load_reference_ids_cases d p s :
  load_reference_ids d p s =
  match d !! p with
  | None =>
      (Raise (SystemExit 2),
       IO (stdout s)
          (stderr s ++ [py "ERROR: reference file not found: " ++ p])
          (opened s))
  | Some (File Plain (_ :: _)) =>
      (Raise BadGzipFile, IO (stdout s) (stderr s) (opened s ++ [p]))
  | Some (File _ recs) =>
      if header_lacks (py "CUMUN") recs then
        (Raise (SystemExit 2),
         IO (stdout s)
            (stderr s ++ [py "ERROR: reference file missing CUMUN header"])
            (opened s ++ [p]))
      else
        (Ok (foldl reference_step ∅ (dict_rows recs)),
         IO (stdout s) (stderr s) (opened s ++ [p]))
  end.
Proof.
  unfold load_reference_ids, path_exists, gzip_open.
  destruct (d !! p) as [[[] recs]|]; cbn [negb]; [| |by run_io].
  - unfold read_records. run_io.
    destruct (header_lacks _ recs); by run_io.
  - destruct recs as [|r recs]; unfold read_records; run_io; [|done].
    destruct (header_lacks _ []); by run_io.
Qed.

Lemma load_forecast_ids_cases d p s :
  load_forecast_ids d p s =
  match d !! p with
  | None =>
      (Raise (SystemExit 2),
       IO (stdout s)
          (stderr s ++ [py "ERROR: forecast file not found: " ++ p])
          (opened s))
  | Some (File Gzip _) =>
      (Raise UnicodeDecodeError, IO (stdout s) (stderr s) (opened s ++ [p]))
  | Some (File Plain recs) =>
      if header_lacks (py "municipio_id") recs then
        (Raise (SystemExit 2),
         IO (stdout s)
            (stderr s ++ [py "ERROR: forecast file missing municipio_id header"])
            (opened s ++ [p]))
      else
        (Ok (foldl forecast_step ∅ (dict_rows recs)),
         IO (stdout s) (stderr s) (opened s ++ [p]))
  end.
Proof.
  unfold load_forecast_ids, path_exists, text_open.
  destruct (d !! p) as [[[] recs]|]; cbn [negb]; [| |by run_io].
  - unfold read_records. by run_io.
  - unfold read_records. run_io.
    destruct (header_lacks _ recs); by run_io.
Qed.

Lemma load_reference_ids_stdout d p s r s' :
  load_reference_ids d p s = (r, s') → stdout s' = stdout s.
Proof.
  rewrite load_reference_ids_cases. intros H.
  repeat case_match; by simplify_eq.
Qed.

Lemma load_forecast_ids_stdout d p s r s' :
  load_forecast_ids d p s = (r, s') → stdout s' = stdout s.
Proof.
  rewrite load_forecast_ids_cases. intros H.
  repeat case_match; by simplify_eq.
Qed.

(** C2. Once both identifier sets are loaded, the auditor exits with 0
    exactly when [missing] is empty and with 1 exactly when it is not; a
    non-empty [unexpected_present] shows as a warning line on standard
    output and has no part in the status. *)
Theorem exit_status_contract root d R F s1 s2 :
  load_reference_ids d (REF_PATH root) io0 = (Ok R, s1) →
  load_forecast_ids d (FORECAST_PATH root) s1 = (Ok F, s2) →
  let missing := missing_of R F EXPECTED_ABSENT in
  let unexpected_present := unexpected_present_of F EXPECTED_ABSENT in
  ((run root d).1 = 0%Z ↔ missing = [])
  ∧ ((run root d).1 = 1%Z ↔ missing ≠ [])
  ∧ (existsb is_warning (stdout (run root d).2) = true
     ↔ unexpected_present ≠ []).
Proof.
  intros H1 H2 missing unexpected_present. unfold run.
  rewrite (main_loaded _ _ _ _ _ _ H1 H2), report_run. cbn [fst snd exit_status stdout].
  apply load_reference_ids_stdout in H1. apply load_forecast_ids_stdout in H2.
  rewrite H2, H1. cbn [stdout io0 app]. rewrite report_lines_warning.
  unfold report_code. fold missing unexpected_present.
  destruct missing, unexpected_present; split_and!; split; done.
Qed.

Lemma exit_status_contract_witness :
  (run audit_example_root audit_example_disk).1 = 1%Z.
Proof.
  apply (exit_status_contract audit_example_root audit_example_disk
           (list_to_set (py <$> ["00001"; "01234"; "05000"]))
           (list_to_set (py <$> ["00001"; "05000"]))
           (IO [] [] [REF_PATH audit_example_root])
           (IO [] [] [REF_PATH audit_example_root;
                      FORECAST_PATH audit_example_root])).
  - vm_compute. reflexivity.
  - vm_compute. reflexivity.
  - vm_compute. discriminate.
Defined.

(** ** Failures of the reference file *)

Lemma joinpath_inj root a b : joinpath root a = joinpath root b → a = b.
Proof.
  unfold joinpath. case_decide; intros Heq.
  - by apply app_inv_head in Heq.
  - apply app_inv_head in Heq. by simplify_eq.
Qed.

Lemma REF_PATH_ne_FORECAST_PATH root : REF_PATH root ≠ FORECAST_PATH root.
Proof. intros H%joinpath_inj. vm_compute in H. discriminate. Qed.

Lemma header_lacks_true column recs :
  (∀ names, fieldnames recs = Some names → column ∉ names) →
  header_lacks column recs = true.
Proof.
  unfold header_lacks. intros H. destruct (fieldnames recs) as [names|]; [|done].
  apply bool_decide_eq_true. by apply H.
Qed.

Lemma run_reference_fails root d :
  reference_fails (d !! REF_PATH root) →
  run root d =
  (2%Z,
   match d !! REF_PATH root with
   | None =>
       IO [] [py "ERROR: reference file not found: " ++ REF_PATH root] []
   | Some _ =>
       IO [] [py "ERROR: reference file missing CUMUN header"] [REF_PATH root]
   end).
Proof.
  intros Href. unfold run, main, mbind, M_bind.
  rewrite load_reference_ids_cases.
  destruct Href as [->|(recs & -> & Hnames)]; [done|].
  by rewrite header_lacks_true.
Qed.

(** C4. If the reference file does not exist, or is read and its header
    has no [CUMUN] column, the auditor exits with status 2, having printed
    nothing on standard output and without opening the forecast file: the
    run is the same whatever else the disk holds. *)
Theorem reference_failure_exits_2 root d :
  (d !! REF_PATH root = None
   ∨ (∃ recs, d !! REF_PATH root = Some (File Gzip recs)
              ∧ (∀ names, fieldnames recs = Some names → py "CUMUN" ∉ names))) →
  (run root d).1 = 2%Z
  ∧ stdout (run root d).2 = []
  ∧ (FORECAST_PATH root ∉ opened (run root d).2)
  ∧ (∀ d', d' !! REF_PATH root = d !! REF_PATH root → run root d' = run root d).
Proof.
  intros Href. split_and!.
  - by rewrite run_reference_fails.
  - rewrite run_reference_fails by done. by destruct (d !! REF_PATH root).
  - rewrite run_reference_fails by done.
    destruct (d !! REF_PATH root); cbn [snd opened]; [|apply not_elem_of_nil].
    rewrite list_elem_of_singleton. intros Heq.
    by apply (REF_PATH_ne_FORECAST_PATH root).
  - intros d' Hd'. rewrite !run_reference_fails, Hd'; [done|done|].
    unfold reference_fails. by rewrite Hd'.
Qed.

Lemma reference_failure_exits_2_witness :
  (run audit_example_root
       (<[FORECAST_PATH audit_example_root :=
            File Plain [[py "municipio_id"]; [py "00001"]]]> ∅)).1 = 2%Z
  ∧ (run audit_example_root
       (<[REF_PATH audit_example_root :=
            File Gzip [[py "CODIGO"; py "NOMBRE"]; [py "08019"; py "Barcelona"]]]>
          audit_example_disk)).1 = 2%Z.
Proof.
  split; apply reference_failure_exits_2.
  - left. by vm_compute.
  - right.
    exists [[py "CODIGO"; py "NOMBRE"]; [py "08019"; py "Barcelona"]].
    split; [by vm_compute|].
    intros names [= <-] Hin%list_elem_of_In. vm_compute in Hin.
    intuition discriminate.
Defined.

(** ** Identifier normalization *)

Lemma is_digit_not_space c : is_digit c = true → isspace c = false.
Proof.
  unfold is_digit. intros [H1%N.leb_le H2%N.leb_le]%andb_true_iff.
  assert (c ∈ [48; 49; 50; 51; 52; 53; 54; 55; 56; 57]) as Hc.
  { assert (∃ k : nat, (k < 10)%nat ∧ c = 48 + N.of_nat k) as (k & Hk & ->)
      by (exists (N.to_nat (c - 48)); lia).
    do 10 (destruct k as [|k]; [set_solver|]). lia. }
  set_unfold. by repeat destruct Hc as [->|Hc].
Qed.

Lemma digits_ends s :
  forallb is_digit s = true → no_space_at (head s) ∧ no_space_at (last s).
Proof.
  intros Hs. rewrite forallb_forall in Hs.
  split; intros c Hc; apply is_digit_not_space, Hs, list_elem_of_In.
  - by apply head_Some_elem_of.
  - by apply last_Some_elem_of.
Qed.

(** Padding a string with clean ends gives a fixed point of both steps. *)
Lemma zfill_strip_fixed s :
  no_space_at (head s) → no_space_at (last s) →
  strip (zfill 5 s) = zfill 5 s ∧ zfill 5 (zfill 5 s) = zfill 5 s.
Proof.
  intros Hh Hl. destruct (zfill_ends 5 s Hh Hl) as [Hh' Hl'].
  split; [by apply strip_fixed|apply zfill_fixed, zfill_length].
Qed.

Lemma zfill_truthy s : truthy (zfill 5 s) = true.
Proof.
  pose proof (zfill_length 5 s) as H.
  destruct (zfill 5 s); [simpl in H; lia|done].
Qed.

Example reference_id_examples :
  reference_id (Some (py " 123 ")) = Some (py "00123")
  ∧ reference_id (Some (py "08019")) = Some (py "08019")
  ∧ reference_id (Some (py "   ")) = None
  ∧ reference_id None = None
  ∧ reference_id (Some (py "-12")) = Some (py "-0012")
  ∧ reference_id (Some (py "123456")) = Some (py "123456").
Proof. by vm_compute. Qed.

(** C8. Normalization (strip, then pad with zeros to width 5) leaves a
    string of five digits as it is, and is idempotent: the identifier a
    cell contributes is again normalized to itself, and stripping and
    padding twice is stripping and padding once. *)
Theorem normalization_idempotent :
  (∀ s, length s = 5%nat → forallb is_digit s = true →
        reference_id (Some s) = Some s)
  ∧ (∀ raw i, reference_id raw = Some i → reference_id (Some i) = Some i)
  ∧ (∀ s, zfill 5 (strip (zfill 5 (strip s))) = zfill 5 (strip s)).
Proof.
  split_and!.
  - intros s Hlen [Hh Hl]%digits_ends. unfold reference_id.
    rewrite (strip_fixed s Hh Hl), zfill_fixed by lia.
    by destruct s.
  - intros [raw|] i; unfold reference_id; [|done].
    destruct (truthy (strip raw)); [|done]. intros [= <-].
    destruct (strip_ends raw) as [Hh Hl].
    destruct (zfill_strip_fixed _ Hh Hl) as [-> ->].
    by rewrite zfill_truthy.
  - intros s. destruct (strip_ends s) as [Hh Hl].
    by destruct (zfill_strip_fixed _ Hh Hl) as [-> ->].
Qed.
End AuditProofs.

(* ===================================================================== *)
(** * The dataset summarizer *)
(* ===================================================================== *)

Module SummarizeProofs.
Import Py Notions PyFacts Summarize.
Local Open Scope string_scope.
Local Open Scope list_scope.
Local Open Scope nat_scope.

(** ** Running minimum and maximum *)

Lemma min_of_snoc xs x : min_of (xs ++ [x]) = running_min (min_of xs) x.
Proof. apply foldl_snoc. Qed.
Lemma max_of_snoc xs x : max_of (xs ++ [x]) = running_max (max_of xs) x.
Proof. apply foldl_snoc. Qed.

Lemma min_of_None xs : min_of xs = None ↔ xs = [].
Proof.
  destruct xs as [|x xs] using rev_ind; [done|].
  rewrite min_of_snoc. unfold running_min. split.
  - destruct (min_of xs); [by case_match|done].
  - intros Hnil. by destruct xs.
Qed.

Lemma max_of_None xs : max_of xs = None ↔ xs = [].
Proof.
  destruct xs as [|x xs] using rev_ind; [done|].
  rewrite max_of_snoc. unfold running_max. split.
  - destruct (max_of xs); [by case_match|done].
  - intros Hnil. by destruct xs.
Qed.

(** The running minimum is the least element in the order of [<]. *)
Lemma min_of_Some xs m :
  min_of xs = Some m → m ∈ xs ∧ Forall (str_le m) xs.
Proof.
  revert m. induction xs as [|x xs IH] using rev_ind; intros m; [done|].
  rewrite min_of_snoc. unfold running_min.
  destruct (min_of xs) as [m'|] eqn:E.
  - destruct (IH m' eq_refl) as [Hin Hall].
    destruct (str_lt x m') eqn:Hlt; intros [= <-].
    + split; [rewrite elem_of_app, list_elem_of_singleton; auto|]. apply Forall_app. split; [|by repeat constructor].
      eapply Forall_impl; [exact Hall|]. intros y Hy.
      transitivity m'; [|done]. apply str_le_lt_eq. by left.
    + split; [rewrite elem_of_app, list_elem_of_singleton; auto|]. apply Forall_app. split; [done|].
      by repeat constructor.
  - apply min_of_None in E as ->. intros [= <-].
    split; [rewrite elem_of_app, list_elem_of_singleton; auto|]. by repeat constructor.
Qed.

(** The running maximum is the greatest element. *)
Lemma max_of_Some xs m :
  max_of xs = Some m → m ∈ xs ∧ Forall (λ x, str_le x m) xs.
Proof.
  revert m. induction xs as [|x xs IH] using rev_ind; intros m; [done|].
  rewrite max_of_snoc. unfold running_max, str_gt.
  destruct (max_of xs) as [m'|] eqn:E.
  - destruct (IH m' eq_refl) as [Hin Hall].
    destruct (str_lt m' x) eqn:Hlt; intros [= <-].
    + split; [rewrite elem_of_app, list_elem_of_singleton; auto|]. apply Forall_app. split; [|by repeat constructor].
      eapply Forall_impl; [exact Hall|]. intros y Hy.
      transitivity m'; [done|]. apply str_le_lt_eq. by left.
    + split; [rewrite elem_of_app, list_elem_of_singleton; auto|]. apply Forall_app. split; [done|].
      repeat constructor. done.
  - apply max_of_None in E as ->. intros [= <-].
    split; [rewrite elem_of_app, list_elem_of_singleton; auto|]. by repeat constructor.
Qed.

Lemma min_of_le_max_of xs lo hi :
  min_of xs = Some lo → max_of xs = Some hi → str_le lo hi.
Proof.
  intros [_ Hlo]%min_of_Some [Hhi _]%max_of_Some.
  rewrite Forall_forall in Hlo. by apply Hlo.
Qed.


(** ** Sizes of sets *)

Lemma size_list_to_set_le (l : list (option str)) :
  size (list_to_set l : gset (option str)) ≤ length l.
Proof.
  induction l as [|x l IH]; [done|]. cbn [list_to_set length].
  rewrite size_union_alt, size_singleton.
  etrans; [|apply le_n_S, IH]. apply le_n_S, subseteq_size.
  intros k. set_unfold. tauto.
Qed.

Lemma size_elem_of_pos (x : option str) (X : gset (option str)) :
  x ∈ X → 0 < size X.
Proof.
  intros Hx. destruct (size X) eqn:E; [|lia].
  apply size_empty_iff in E. by apply E in Hx.
Qed.

(** ** Rows by day *)

Lemma date_of_Some col r v : date_of col r = Some v ↔ get r col = Some v ∧ v ≠ [].
Proof.
  unfold date_of. destruct (get r col) as [[|c v']|].
  - split; [done|]. intros [Heq Hne]. by simplify_eq.
  - split; [intros Heq; by simplify_eq|]. intros [Heq _]. by simplify_eq.
  - split; [done|]. by intros [? _].
Qed.

Lemma date_of_nonempty col r : date_of col r ≠ Some [].
Proof. intros [_ ?]%date_of_Some. done. Qed.

Lemma hour_day_nonempty r : hour_day r ≠ Some [].
Proof.
  unfold hour_day, date_of, prefix_slice.
  by destruct (get r (py "fint")) as [[|c v]|].
Qed.

Section by_day.
Context (day_of : row → option str) (key_of : row → option str).

Lemma rows_of_snoc day rows r :
  rows_of day_of day (rows ++ [r]) =
  rows_of day_of day rows ++ (if decide (day_of r = Some day) then [r] else []).
Proof.
  unfold rows_of. rewrite filter_app.
  case_decide; [by rewrite filter_cons_True|by rewrite filter_cons_False].
Qed.

(** A day's set holds the keys of all rows of that day, and days without
    a row have no entry. *)
Lemma group_lookup rows day :
  group day_of key_of rows !! day =
  match rows_of day_of day rows with
  | [] => None
  | rs => Some (list_to_set (key_of <$> rs))
  end.
Proof.
  induction rows as [|r rows IH] using rev_ind; [done|].
  unfold group in *. rewrite foldl_snoc, rows_of_snoc. unfold group_step at 1.
  destruct (day_of r) as [day'|] eqn:Hday.
  - unfold add_key. destruct (decide (day' = day)) as [->|Hne].
    + rewrite lookup_insert_eq, decide_True by done. rewrite IH.
      destruct (rows_of day_of day rows) as [|r0 rs]; simpl.
      * done.
      * f_equal. rewrite fmap_app, list_to_set_app_L. simpl.
        apply set_eq. intros k. set_unfold. tauto.
    + rewrite lookup_insert_ne by done.
      rewrite decide_False by congruence. by rewrite app_nil_r.
  - rewrite decide_False by congruence. by rewrite app_nil_r.
Qed.

(** A day's count is the number of rows of that day. *)
Lemma tally_lookup rows day :
  tally day_of rows !! day =
  match length (rows_of day_of day rows) with
  | O => None
  | n => Some n
  end.
Proof.
  induction rows as [|r rows IH] using rev_ind; [done|].
  unfold tally in *. rewrite foldl_snoc, rows_of_snoc. unfold tally_step at 1.
  destruct (day_of r) as [day'|] eqn:Hday.
  - destruct (decide (day' = day)) as [->|Hne].
    + rewrite lookup_insert_eq, decide_True by done. rewrite IH.
      rewrite length_app. simpl.
      destruct (length (rows_of day_of day rows)); simpl; f_equal; lia.
    + rewrite lookup_insert_ne by done.
      rewrite decide_False by congruence. by rewrite app_nil_r.
  - rewrite decide_False by congruence. by rewrite app_nil_r.
Qed.

Lemma group_count_le rows day n :
  per_day_counts (group day_of key_of rows) !! day = Some n →
  0 < n ≤ length (rows_of day_of day rows).
Proof.
  unfold per_day_counts. rewrite lookup_fmap, group_lookup.
  destruct (rows_of day_of day rows) as [|r rs] eqn:E; [done|]. intros [= <-].
  split.
  - apply size_elem_of_pos with (key_of r). set_unfold. tauto.
  - pose proof (size_list_to_set_le (key_of <$> r :: rs)) as Hle.
    by rewrite length_fmap in Hle.
Qed.
End by_day.

(** ** The three loops, field by field *)

Lemma omap_snoc (f : row → option str) rows r :
  omap f (rows ++ [r]) =
  omap f rows ++ match f r with Some x => [x] | None => [] end.
Proof. by rewrite omap_app. Qed.

Lemma group_snoc day_of key_of rows r :
  group day_of key_of (rows ++ [r]) =
  group_step day_of key_of (group day_of key_of rows) r.
Proof. apply foldl_snoc. Qed.

Lemma tally_snoc day_of rows r :
  tally day_of (rows ++ [r]) = tally_step day_of (tally day_of rows) r.
Proof. apply foldl_snoc. Qed.

Lemma daily_step_date date_col station_col s r :
  Daily.step date_col station_col s r =
  match date_of date_col r with
  | Some date_val =>
      Daily.Locals (add_key (Daily.per_day s) date_val (get r station_col))
                   (running_min (Daily.min_date s) date_val)
                   (running_max (Daily.max_date s) date_val)
                   (S (Daily.total_rows s))
  | None =>
      Daily.Locals (Daily.per_day s) (Daily.min_date s) (Daily.max_date s)
                   (S (Daily.total_rows s))
  end.
Proof.
  unfold Daily.step, date_of. by destruct (get r date_col) as [[|c v]|].
Qed.

Lemma daily_loop_fields date_col station_col rows :
  Daily.loop date_col station_col rows =
  Daily.Locals
    (group (date_of date_col) (λ r, get r station_col) rows)
    (min_of (omap (date_of date_col) rows))
    (max_of (omap (date_of date_col) rows))
    (length rows).
Proof.
  induction rows as [|r rows IH] using rev_ind; [done|].
  unfold Daily.loop in *. rewrite foldl_snoc, IH, daily_step_date.
  rewrite group_snoc, omap_snoc, length_app, Nat.add_1_r.
  unfold group_step.
  destruct (date_of date_col r); cbn;
    by rewrite ?app_nil_r, ?min_of_snoc, ?max_of_snoc.
Qed.

Lemma hourly_step_date s r :
  Hourly.step s r =
  match date_of (py "fint") r with
  | Some fint =>
      Hourly.Locals
        (add_key (Hourly.per_day s) (prefix_slice 10 fint) (get r (py "idema")))
        (running_min (Hourly.min_ts s) fint)
        (running_max (Hourly.max_ts s) fint)
        (S (Hourly.total_rows s))
  | None =>
      Hourly.Locals (Hourly.per_day s) (Hourly.min_ts s) (Hourly.max_ts s)
                    (S (Hourly.total_rows s))
  end.
Proof.
  unfold Hourly.step, date_of. by destruct (get r (py "fint")) as [[|c v]|].
Qed.

Lemma hourly_loop_fields rows :
  Hourly.loop rows =
  Hourly.Locals
    (group hour_day (λ r, get r (py "idema")) rows)
    (min_of (omap (date_of (py "fint")) rows))
    (max_of (omap (date_of (py "fint")) rows))
    (length rows).
Proof.
  induction rows as [|r rows IH] using rev_ind; [done|].
  unfold Hourly.loop in *. rewrite foldl_snoc, IH, hourly_step_date.
  rewrite group_snoc, omap_snoc, length_app, Nat.add_1_r.
  unfold group_step, hour_day.
  destruct (date_of (py "fint") r); cbn;
    by rewrite ?app_nil_r, ?min_of_snoc, ?max_of_snoc.
Qed.

Lemma forecast_step_date s r :
  Forecast.step s r =
  let collected_at :=
    match date_of (py "collected_at") r with
    | Some ca => running_max (Forecast.collected_at s) ca
    | None => Forecast.collected_at s
    end in
  match date_of (py "fecha") r with
  | Some date_val =>
      Forecast.Locals
        (<[date_val := S (default 0 (Forecast.per_day s !! date_val))]>
           (Forecast.per_day s))
        (running_min (Forecast.min_date s) date_val)
        (running_max (Forecast.max_date s) date_val)
        collected_at
        (S (Forecast.total_rows s))
  | None =>
      Forecast.Locals (Forecast.per_day s) (Forecast.min_date s)
                      (Forecast.max_date s) collected_at
                      (S (Forecast.total_rows s))
  end.
Proof.
  unfold Forecast.step, Forecast.latest, date_of.
  by destruct (get r (py "fecha")) as [[|c v]|],
              (get r (py "collected_at")) as [[|c' v']|].
Qed.

Lemma forecast_loop_fields rows :
  Forecast.loop rows =
  Forecast.Locals
    (tally (date_of (py "fecha")) rows)
    (min_of (omap (date_of (py "fecha")) rows))
    (max_of (omap (date_of (py "fecha")) rows))
    (max_of (omap (date_of (py "collected_at")) rows))
    (length rows).
Proof.
  induction rows as [|r rows IH] using rev_ind; [done|].
  unfold Forecast.loop in *. rewrite foldl_snoc, IH, forecast_step_date.
  rewrite tally_snoc, !omap_snoc, length_app, Nat.add_1_r.
  unfold tally_step.
  destruct (date_of (py "fecha") r), (date_of (py "collected_at") r); cbn;
    by rewrite ?app_nil_r, ?min_of_snoc, ?max_of_snoc.
Qed.

(** ** Opening and reading a file *)

(** What the three summarising functions make of a path: the fallback to
    a plain [open] is only reached when [gzip.open] could not open the
    file, and then fails in the same way. *)
Lemma scan_file {A} (k : list record → A) d path s :
  (handle ← open_text d path; recs ← read_records handle; mret (k recs)) s =
  match d !! path with
  | None => (Raise (FileNotFoundError path), s)
  | Some (File Plain (_ :: _)) =>
      (Raise BadGzipFile, IO (stdout s) (stderr s) (opened s ++ [path]))
  | Some (File _ recs) =>
      (Ok (k recs), IO (stdout s) (stderr s) (opened s ++ [path]))
  end.
Proof.
  unfold open_text, try_except_OSError, gzip_open, text_open.
  destruct (d !! path) as [[[] recs]|]; run_io; cbn [is_OSError].
  - done.
  - by destruct recs.
  - run_io. by destruct s.
Qed.

Lemma open_text_existing d path f s :
  d !! path = Some f →
  open_text d path s =
  (Ok (GzipText f), IO (stdout s) (stderr s) (opened s ++ [path])).
Proof.
  intros Hf. unfold open_text, try_except_OSError, gzip_open.
  rewrite Hf. by run_io.
Qed.

(** C3. On an existing plain-text file [open_text] returns the gzip
    reader (the fallback is not taken), the first read raises
    [BadGzipFile], no row is read and the run ends with status 1 after the
    header of no summary. *)
Theorem plain_text_file_is_not_read :
  (open_text plain_example_disk (py "daily.csv") io0).1
  = Ok (GzipText (File Plain plain_example_records))
  ∧ (summarise_daily_file plain_example_disk (py "daily.csv")
       (py "fecha") (py "indicativo") io0).1 = Raise BadGzipFile
  ∧ (summarise_hourly_file plain_example_disk (py "daily.csv") io0).1
    = Raise BadGzipFile
  ∧ (summarise_forecast plain_example_disk (py "daily.csv") io0).1
    = Raise BadGzipFile
  ∧ run plain_example_disk [(py "Current Daily", py "daily.csv")]
    = (1%Z, IO [] [] [py "daily.csv"]).
Proof. split_and!; by vm_compute. Qed.

(** Every non-empty plain-text file fails in this way, whatever the kind
    of summary. *)
Lemma plain_text_raises {A} (k : list record → A) d path rec recs s :
  d !! path = Some (File Plain (rec :: recs)) →
  (handle ← open_text d path; recs ← read_records handle; mret (k recs)) s =
  (Raise BadGzipFile, IO (stdout s) (stderr s) (opened s ++ [path])).
Proof. intros Hf. by rewrite scan_file, Hf. Qed.

(** ** The forecast summary *)

Lemma holds_min_of xs : holds_min xs (Some (of_opt (min_of xs))).
Proof.
  unfold holds_min, of_opt. destruct (min_of xs) eqn:E.
  - by apply min_of_Some.
  - by apply min_of_None.
Qed.

Lemma holds_max_of xs : holds_max xs (Some (of_opt (max_of xs))).
Proof.
  unfold holds_max, of_opt. destruct (max_of xs) eqn:E.
  - by apply max_of_Some.
  - by apply max_of_None.
Qed.

(** The rows of a day are those with that value in the date column. *)
Lemma rows_of_date col day rows :
  day ≠ [] →
  rows_of (date_of col) day rows = filter (λ r, get r col = Some day) rows.
Proof.
  intros Hday. unfold rows_of. apply list_filter_iff. intros r.
  rewrite date_of_Some. tauto.
Qed.

Lemma rows_of_empty_day col rows : rows_of (date_of col) [] rows = [].
Proof.
  unfold rows_of. induction rows as [|r rows IH]; [done|].
  rewrite filter_cons_False; [done|]. apply date_of_nonempty.
Qed.

(** C5. A forecast file that is read yields: under [per_day_rows], for
    every non-empty date the number of rows bearing it (and no entry for a
    date no row bears); under [min_date] and [max_date] the least and the
    greatest of the non-empty dates under [<] on strings; under
    [latest_collected_at] the greatest non-empty [collected_at]; under
    [rows] the number of rows. *)
Theorem forecast_summary_spec d path recs s :
  d !! path = Some (File Gzip recs) →
  let rows := dict_rows recs in
  ∃ st per_day,
    (summarise_forecast d path s).1 = Ok st
    ∧ st !! py "rows" = Some (VInt (length rows))
    ∧ st !! py "per_day_rows" = Some (VDict per_day)
    ∧ (∀ day, day ≠ [] →
         per_day !! day =
         match length (filter (λ r, get r (py "fecha") = Some day) rows) with
         | O => None
         | n => Some n
         end)
    ∧ per_day !! [] = None
    ∧ holds_min (column_values (py "fecha") rows) (st !! py "min_date")
    ∧ holds_max (column_values (py "fecha") rows) (st !! py "max_date")
    ∧ holds_max (column_values (py "collected_at") rows)
                (st !! py "latest_collected_at").
Proof.
  intros Hfile rows. unfold summarise_forecast.
  rewrite scan_file, Hfile. cbn [fst]. fold rows.
  rewrite forecast_loop_fields.
  eexists _, _. split; [done|]. unfold Forecast.returned.
  cbn [Forecast.per_day Forecast.min_date Forecast.max_date
       Forecast.collected_at Forecast.total_rows].
  split_and!.
  - done.
  - done.
  - intros day Hday. by rewrite tally_lookup, rows_of_date.
  - by rewrite tally_lookup, rows_of_empty_day.
  - apply holds_min_of.
  - apply holds_max_of.
  - apply holds_max_of.
Qed.

Lemma forecast_summary_spec_witness :
  ∃ st per_day,
    (summarise_forecast forecast_example_disk (py "forecast.csv.gz") io0).1
    = Ok st
    ∧ st !! py "per_day_rows" = Some (VDict per_day)
    ∧ per_day !! py "2024-01-01" = Some 3
    ∧ per_day !! py "2024-01-02" = Some 1
    ∧ per_day !! py "2024-01-03" = None.
Proof.
  destruct (forecast_summary_spec forecast_example_disk (py "forecast.csv.gz")
              forecast_example_records io0)
    as (st & per_day & Hst & _ & Hper_day & Hcount & _); [reflexivity|].
  exists st, per_day.
  split_and!; [done|done|rewrite Hcount..]; by vm_compute.
Defined.

Example forecast_example_summary :
  (summarise_forecast forecast_example_disk (py "forecast.csv.gz") io0).1 =
  Ok (<[py "rows" := VInt 4]>
     (<[py "min_date" := VStr (py "2024-01-01")]>
     (<[py "max_date" := VStr (py "2024-01-02")]>
     (<[py "latest_collected_at" := VStr (py "2024-01-01T07:30:00")]>
     (<[py "per_day_rows" :=
          VDict {[ py "2024-01-01" := 3; py "2024-01-02" := 1 ]}]> ∅))))).
Proof. by vm_compute. Qed.

(** ** Bounds on the per-day counts and on the range *)

Lemma rows_of_hour_day day rows :
  length (rows_of hour_day day rows) ≤
  length (filter (λ r, prefix_slice 10 <$> get r (py "fint") = Some day) rows).
Proof.
  unfold rows_of. induction rows as [|r rows IH]; [done|].
  rewrite !filter_cons.
  destruct (decide (hour_day r = Some day)) as [Hr|Hr];
    destruct (decide (prefix_slice 10 <$> get r (py "fint") = Some day))
      as [Hr'|Hr']; simpl; try lia.
  destruct Hr'. unfold hour_day, date_of in Hr.
  by destruct (get r (py "fint")) as [[|c v]|].
Qed.

Lemma rows_of_date_le col day rows :
  length (rows_of (date_of col) day rows) ≤
  length (filter (λ r, get r col = Some day) rows).
Proof.
  destruct (decide (day = [])) as [->|Hday].
  - rewrite rows_of_empty_day. simpl. lia.
  - by rewrite rows_of_date.
Qed.

(** C6. In the summary of a file that is read, each per-day count of
    distinct keys is at most the number of rows carrying that day's date
    (for an hourly file: whose timestamp starts with that day), and when
    the least and the greatest date (or timestamp) are both defined the
    least is [<=] the greatest; the latter also holds for a forecast
    file. *)
Theorem counts_bounded_and_range_ordered d path recs s :
  d !! path = Some (File Gzip recs) →
  let rows := dict_rows recs in
  (∀ date_col station_col, ∃ st counts,
     (summarise_daily_file d path date_col station_col s).1 = Ok st
     ∧ st !! py "per_day_counts" = Some (VDict counts)
     ∧ (∀ day n, counts !! day = Some n →
          n ≤ length (filter (λ r, get r date_col = Some day) rows))
     ∧ (∀ lo hi, st !! py "min_date" = Some (VStr lo) →
                 st !! py "max_date" = Some (VStr hi) → str_le lo hi))
  ∧ (∃ st counts,
       (summarise_hourly_file d path s).1 = Ok st
       ∧ st !! py "per_day_counts" = Some (VDict counts)
       ∧ (∀ day n, counts !! day = Some n →
            n ≤ length (filter (λ r, prefix_slice 10 <$> get r (py "fint")
                                     = Some day) rows))
       ∧ (∀ lo hi, st !! py "min_ts" = Some (VStr lo) →
                   st !! py "max_ts" = Some (VStr hi) → str_le lo hi))
  ∧ (∃ st,
       (summarise_forecast d path s).1 = Ok st
       ∧ (∀ lo hi, st !! py "min_date" = Some (VStr lo) →
                   st !! py "max_date" = Some (VStr hi) → str_le lo hi)).
Proof.
  intros Hfile rows.
  assert (∀ xs lo hi, Some (of_opt (min_of xs)) = Some (VStr lo) →
                      Some (of_opt (max_of xs)) = Some (VStr hi) →
                      str_le lo hi) as Hrange.
  { intros xs lo hi Hlo Hhi. apply (min_of_le_max_of xs).
    - destruct (min_of xs); by simplify_eq/=.
    - destruct (max_of xs); by simplify_eq/=. }
  split_and!.
  - intros date_col station_col. unfold summarise_daily_file.
    rewrite scan_file, Hfile. cbn [fst]. fold rows.
    rewrite daily_loop_fields. eexists _, _. split; [done|].
    split; [done|]. split; [|apply Hrange].
    intros day n [_ Hn]%group_count_le.
    etrans; [exact Hn|apply rows_of_date_le].
  - unfold summarise_hourly_file.
    rewrite scan_file, Hfile. cbn [fst]. fold rows.
    rewrite hourly_loop_fields. eexists _, _. split; [done|].
    split; [done|]. split; [|apply Hrange].
    intros day n [_ Hn]%group_count_le.
    etrans; [exact Hn|apply rows_of_hour_day].
  - unfold summarise_forecast.
    rewrite scan_file, Hfile. cbn [fst]. fold rows.
    rewrite forecast_loop_fields. eexists. split; [done|]. apply Hrange.
Qed.

Lemma counts_bounded_and_range_ordered_witness :
  ∃ st counts,
    (summarise_daily_file daily_example_disk (py "daily.csv.gz")
       (py "fecha") (py "indicativo") io0).1 = Ok st
    ∧ st !! py "per_day_counts" = Some (VDict counts)
    ∧ (∀ day n, counts !! day = Some n →
         n ≤ length (filter (λ r, get r (py "fecha") = Some day)
                            (dict_rows daily_example_records))).
Proof.
  destruct (counts_bounded_and_range_ordered daily_example_disk
              (py "daily.csv.gz") daily_example_records io0 eq_refl)
    as [Hdaily _].
  destruct (Hdaily (py "fecha") (py "indicativo"))
    as (st & counts & Hst & Hcounts & Hbound & _).
  by exists st, counts.
Defined.

Example daily_example_summary :
  (summarise_daily_file daily_example_disk (py "daily.csv.gz")
     (py "fecha") (py "indicativo") io0).1 =
  Ok (<[py "rows" := VInt 4]>
     (<[py "min_date" := VStr (py "2024-01-01")]>
     (<[py "max_date" := VStr (py "2024-01-02")]>
     (<[py "per_day_counts" :=
          VDict {[ py "2024-01-01" := 2; py "2024-01-02" := 1 ]}]> ∅)))).
Proof. by vm_compute. Qed.

(** ** Rows without a station value *)

Section absent_keys.
Context (day_of : row → option str) (key_of : row → option str).

(** A row with a day puts its key, whatever it is, into that day's set. *)
Lemma group_contributes rows r day :
  r ∈ rows → day_of r = Some day →
  ∃ keys, group day_of key_of rows !! day = Some keys ∧ key_of r ∈ keys.
Proof.
  intros Hr Hday. rewrite group_lookup.
  assert (r ∈ rows_of day_of day rows) as Hin
    by (by apply list_elem_of_filter).
  destruct (rows_of day_of day rows) as [|r0 rs] eqn:E;
    [by apply elem_of_nil in Hin|].
  eexists. split; [done|].
  apply elem_of_list_to_set, list_elem_of_fmap. by exists r.
Qed.

(** The count of a day whose rows all lack a key: one if they lack it in
    the same way, two if some cells are missing and some are empty. *)
Lemma group_absent_count rows day :
  rows_of day_of day rows ≠ [] →
  Forall (λ r, lacks_value (key_of r)) (rows_of day_of day rows) →
  per_day_counts (group day_of key_of rows) !! day =
  Some (if decide (Exists (λ r, key_of r = None) (rows_of day_of day rows)
                   ∧ Exists (λ r, key_of r = Some []) (rows_of day_of day rows))
        then 2 else 1).
Proof.
  intros Hne Hall. unfold per_day_counts. rewrite lookup_fmap, group_lookup.
  remember (rows_of day_of day rows) as rs0 eqn:Ers. clear Ers.
  destruct rs0 as [|r0 rs0]; [done|]. clear Hne.
  remember (r0 :: rs0) as rs eqn:Ers.
  assert (rs ≠ []) as Hne by (by subst). clear Ers r0 rs0.
  change (Some (size (list_to_set (key_of <$> rs) : gset (option str))) = 
          Some (if decide (Exists (λ r, key_of r = None) rs
                           ∧ Exists (λ r, key_of r = Some []) rs)
                then 2 else 1)).
  f_equal.
  set (keys := list_to_set (key_of <$> rs) : gset (option str)).
  assert (∀ k, k ∈ keys ↔ Exists (λ r, key_of r = k) rs) as Hkeys.
  { intros k. unfold keys.
    rewrite elem_of_list_to_set, list_elem_of_fmap, Exists_exists.
    split; [intros (r & -> & Hr)|intros (r & Hr & <-)]; by exists r. }
  assert (∀ k, k ∈ keys → k = None ∨ k = Some []) as Hlack.
  { intros k (r & Hr & <-)%Hkeys%Exists_exists.
    rewrite Forall_forall in Hall. by apply Hall. }
  assert (∃ k, k ∈ keys) as [k0 Hk0].
  { destruct rs as [|r rs']; [done|]. exists (key_of r).
    apply Hkeys. by left. }
  case_decide as Hboth.
  - destruct Hboth as [HNone%Hkeys HEmpty%Hkeys].
    assert (keys = {[None; Some []]}) as ->.
    { apply set_eq. intros k. rewrite elem_of_union, !elem_of_singleton.
      split; [apply Hlack|]. by intros [->| ->]. }
    by rewrite size_union, !size_singleton by (by apply disjoint_singleton_l, not_elem_of_singleton).
  - assert (keys = {[k0]}) as ->; [|by rewrite size_singleton].
    apply set_eq. intros k. rewrite elem_of_singleton. split; [|by intros ->].
    intros Hk. destruct (Hlack k Hk) as [->| ->], (Hlack k0 Hk0) as [->| ->];
      try done; destruct Hboth; by rewrite <- !Hkeys.
Qed.
End absent_keys.

(** C9, as stated, fails: all rows of the day lack a station value, and
    the day reports two distinct keys. *)
Lemma all_absent_day_counts_two :
  Forall (λ r, get r (py "fecha") = Some (py "2024-01-01")
               ∧ lacks_value (get r (py "indicativo")))
         (dict_rows absent_example_records)
  ∧ (summarise_daily_file absent_example_disk (py "daily.csv.gz")
       (py "fecha") (py "indicativo") io0).1 =
    Ok (<[py "rows" := VInt 2]>
       (<[py "min_date" := VStr (py "2024-01-01")]>
       (<[py "max_date" := VStr (py "2024-01-01")]>
       (<[py "per_day_counts" := VDict {[ py "2024-01-01" := 2 ]}]> ∅)))).
Proof.
  split; [|by vm_compute].
  apply (bool_decide_unpack _). by vm_compute.
Qed.

(** C9, amended. In the daily and hourly loops a row with a non-empty
    date (timestamp) puts its station value into that day's set even when
    the value is missing or empty, so no such row is skipped; a day whose
    rows all lack a station value reports 1 when they all lack it in the
    same way (all missing, or all empty) and 2 when some are missing and
    some are empty, never 0. *)
Theorem absent_station_values_are_counted date_col station_col rows :
  let daily := Daily.per_day (Daily.loop date_col station_col rows) in
  let hourly := Hourly.per_day (Hourly.loop rows) in
  (∀ r day, r ∈ rows → date_of date_col r = Some day →
     ∃ keys, daily !! day = Some keys ∧ get r station_col ∈ keys)
  ∧ (∀ r day, r ∈ rows → hour_day r = Some day →
       ∃ keys, hourly !! day = Some keys ∧ get r (py "idema") ∈ keys)
  ∧ (∀ day,
       let rs := filter (λ r, date_of date_col r = Some day) rows in
       rs ≠ [] → Forall (λ r, lacks_value (get r station_col)) rs →
       per_day_counts daily !! day =
       Some (if decide (Exists (λ r, get r station_col = None) rs
                        ∧ Exists (λ r, get r station_col = Some []) rs)
             then 2 else 1))
  ∧ (∀ day,
       let rs := filter (λ r, hour_day r = Some day) rows in
       rs ≠ [] → Forall (λ r, lacks_value (get r (py "idema"))) rs →
       per_day_counts hourly !! day =
       Some (if decide (Exists (λ r, get r (py "idema") = None) rs
                        ∧ Exists (λ r, get r (py "idema") = Some []) rs)
             then 2 else 1)).
Proof.
  intros daily hourly. unfold daily, hourly.
  rewrite daily_loop_fields, hourly_loop_fields.
  cbn [Daily.per_day Hourly.per_day]. split_and!.
  - intros r day. apply group_contributes.
  - intros r day. apply group_contributes.
  - intros day. apply group_absent_count.
  - intros day. apply group_absent_count.
Qed.

(** ** Rows without a date *)

Lemma total_insert_fresh per_day day n :
  per_day !! day = None → total (<[day := n]> per_day) = n + total per_day.
Proof.
  intros Hday. unfold total. rewrite map_fold_insert_L; [done| |done].
  intros. lia.
Qed.

Lemma total_lookup per_day day n :
  per_day !! day = Some n → total per_day = n + total (delete day per_day).
Proof.
  intros Hday. unfold total.
  rewrite (map_fold_delete_L _ _ day n per_day); [done| |done].
  intros. lia.
Qed.

Lemma total_insert per_day day n :
  total (<[day := n]> per_day) + default 0 (per_day !! day) = n + total per_day.
Proof.
  destruct (per_day !! day) as [n0|] eqn:Hday; simpl.
  - rewrite (total_lookup per_day day n0 Hday), <- insert_delete_eq.
    rewrite total_insert_fresh by apply lookup_delete_eq. lia.
  - rewrite total_insert_fresh by done. lia.
Qed.

Section undated.
Context (day_of : row → option str) (key_of : row → option str).

Lemma total_tally rows : total (tally day_of rows) = length (dated day_of rows).
Proof.
  unfold dated. induction rows as [|r rows IH] using rev_ind; [done|].
  rewrite tally_snoc, filter_app, length_app, filter_cons, filter_nil.
  unfold tally_step. destruct (day_of r) as [day|] eqn:Hday.
  - rewrite decide_True by done.
    pose proof (total_insert (tally day_of rows) day
                  (S (default 0 (tally day_of rows !! day)))) as Hins.
    simpl. lia.
  - rewrite decide_False by (by intros [? ?]). simpl. lia.
Qed.

Lemma total_group rows :
  total (per_day_counts (group day_of key_of rows)) ≤ length (dated day_of rows).
Proof.
  unfold dated. induction rows as [|r rows IH] using rev_ind; [done|].
  rewrite group_snoc, filter_app, length_app, filter_cons, filter_nil.
  unfold group_step. destruct (day_of r) as [day|] eqn:Hday.
  - rewrite decide_True by done. unfold add_key, per_day_counts in *.
    rewrite fmap_insert.
    pose proof (total_insert (size <$> group day_of key_of rows) day
                  (size ({[key_of r]} ∪
                         default ∅ (group day_of key_of rows !! day))))
      as Hins.
    rewrite lookup_fmap in Hins.
    assert (size ({[key_of r]} ∪ default ∅ (group day_of key_of rows !! day))
            ≤ S (default 0 (size <$> group day_of key_of rows !! day))) as Hle.
    { destruct (group day_of key_of rows !! day) as [keys|];
        cbn [default from_option fmap option_fmap option_map].
      - rewrite size_union_alt, size_singleton.
        apply le_n_S, subseteq_size. intros k. set_unfold. tauto.
      - by rewrite (right_id_L ∅ (∪)), size_singleton. }
    simpl. lia.
  - rewrite decide_False by (by intros [? ?]). simpl. lia.
Qed.

(** Rows without a day leave the per-day values as they are. *)
Lemma group_dated rows :
  group day_of key_of (dated day_of rows) = group day_of key_of rows.
Proof.
  unfold dated. induction rows as [|r rows IH] using rev_ind; [done|].
  rewrite filter_app, filter_cons, filter_nil, group_snoc.
  destruct (day_of r) as [day|] eqn:Hday.
  - rewrite decide_True by done. by rewrite group_snoc, IH.
  - rewrite decide_False by (by intros [? ?]).
    rewrite app_nil_r, IH. unfold group_step. by rewrite Hday.
Qed.

Lemma tally_dated rows : tally day_of (dated day_of rows) = tally day_of rows.
Proof.
  unfold dated. induction rows as [|r rows IH] using rev_ind; [done|].
  rewrite filter_app, filter_cons, filter_nil, tally_snoc.
  destruct (day_of r) as [day|] eqn:Hday.
  - rewrite decide_True by done. by rewrite tally_snoc, IH.
  - rewrite decide_False by (by intros [? ?]).
    rewrite app_nil_r, IH. unfold tally_step. by rewrite Hday.
Qed.

Lemma omap_dated rows : omap day_of (dated day_of rows) = omap day_of rows.
Proof.
  unfold dated. induction rows as [|r rows IH] using rev_ind; [done|].
  rewrite filter_app, !omap_app, IH, filter_cons, filter_nil. f_equal.
  destruct (day_of r) as [day|] eqn:Hday.
  - rewrite decide_True by done. simpl. by rewrite Hday.
  - rewrite decide_False by (by intros [? ?]). simpl. by rewrite Hday.
Qed.

Lemma dated_length rows : length (dated day_of rows) ≤ length rows.
Proof. apply length_filter. Qed.

Lemma dated_length_lt rows r :
  r ∈ rows → day_of r = None → length (dated day_of rows) < length rows.
Proof.
  intros Hr Hday. apply (length_filter_lt _ _ r); [done|].
  rewrite Hday. by intros [? ?].
Qed.
End undated.

Lemma date_of_None col r : date_of col r = None ↔ lacks_value (get r col).
Proof.
  unfold date_of, lacks_value. destruct (get r col) as [[|c v]|]; split;
    try done; auto; by intros [?|?].
Qed.

Lemma dated_date_of col rows :
  dated (date_of col) rows = filter (λ r, ¬ lacks_value (get r col)) rows.
Proof.
  unfold dated. apply list_filter_iff. intros r.
  rewrite <- date_of_None, <- not_eq_None_Some. done.
Qed.

Lemma dated_hour_day rows :
  dated hour_day rows = filter (λ r, ¬ lacks_value (get r (py "fint"))) rows.
Proof.
  rewrite <- dated_date_of. unfold dated. apply list_filter_iff. intros r.
  unfold hour_day. by rewrite fmap_is_Some.
Qed.

Lemma omap_dated_hour_day rows :
  omap (date_of (py "fint")) (dated hour_day rows) =
  omap (date_of (py "fint")) rows.
Proof. by rewrite dated_hour_day, <- dated_date_of, omap_dated. Qed.

(** C10. In each kind of summary [rows] is the number of all rows, while
    the per-day values and the least and greatest date (timestamp) are
    those of the rows whose date is neither missing nor empty; the sum of
    the per-day values is at most (for a forecast: exactly) the number of
    those rows, so [rows] strictly exceeds it as soon as one row has no
    date. *)
Theorem undated_rows_only_count_as_rows date_col station_col rows :
  (let kept := filter (λ r, ¬ lacks_value (get r date_col)) rows in
   let s := Daily.loop date_col station_col rows in
   let s' := Daily.loop date_col station_col kept in
   Daily.returned s !! py "rows" = Some (VInt (length rows))
   ∧ Daily.per_day s = Daily.per_day s'
   ∧ Daily.min_date s = Daily.min_date s'
   ∧ Daily.max_date s = Daily.max_date s'
   ∧ total (per_day_counts (Daily.per_day s)) ≤ length kept ≤ length rows
   ∧ (Exists (λ r, lacks_value (get r date_col)) rows →
      total (per_day_counts (Daily.per_day s)) < length rows))
  ∧ (let kept := filter (λ r, ¬ lacks_value (get r (py "fint"))) rows in
     let s := Hourly.loop rows in
     let s' := Hourly.loop kept in
     Hourly.returned s !! py "rows" = Some (VInt (length rows))
     ∧ Hourly.per_day s = Hourly.per_day s'
     ∧ Hourly.min_ts s = Hourly.min_ts s'
     ∧ Hourly.max_ts s = Hourly.max_ts s'
     ∧ total (per_day_counts (Hourly.per_day s)) ≤ length kept ≤ length rows
     ∧ (Exists (λ r, lacks_value (get r (py "fint"))) rows →
        total (per_day_counts (Hourly.per_day s)) < length rows))
  ∧ (let kept := filter (λ r, ¬ lacks_value (get r (py "fecha"))) rows in
     let s := Forecast.loop rows in
     let s' := Forecast.loop kept in
     Forecast.returned s !! py "rows" = Some (VInt (length rows))
     ∧ Forecast.per_day s = Forecast.per_day s'
     ∧ Forecast.min_date s = Forecast.min_date s'
     ∧ Forecast.max_date s = Forecast.max_date s'
     ∧ total (Forecast.per_day s) = length kept ∧ length kept ≤ length rows
     ∧ (Exists (λ r, lacks_value (get r (py "fecha"))) rows →
        total (Forecast.per_day s) < length rows)).
Proof.
  assert (∀ col, Exists (λ r, lacks_value (get r col)) rows →
            length (filter (λ r, ¬ lacks_value (get r col)) rows)
            < length rows) as Hstrict.
  { intros col (r & Hr & Hlacks)%Exists_exists.
    apply (length_filter_lt _ _ r); [done|]. by intros []. }
  split_and!.
  - intros kept s s'. unfold s, s', kept.
    rewrite !daily_loop_fields, <- !dated_date_of.
    rewrite group_dated, omap_dated.
    pose proof (total_group (date_of date_col) (λ r, get r station_col) rows).
    pose proof (dated_length (date_of date_col) rows).
    cbn [Daily.per_day Daily.min_date Daily.max_date].
    split_and!; try done.
    intros Hex%Hstrict. rewrite <- dated_date_of in Hex. lia.
  - intros kept s s'. unfold s, s', kept.
    rewrite !hourly_loop_fields, <- !dated_hour_day.
    rewrite group_dated, omap_dated_hour_day.
    pose proof (total_group hour_day (λ r, get r (py "idema")) rows).
    pose proof (dated_length hour_day rows).
    cbn [Hourly.per_day Hourly.min_ts Hourly.max_ts].
    split_and!; try done.
    intros Hex%Hstrict. rewrite <- dated_hour_day in Hex. lia.
  - intros kept s s'. unfold s, s', kept.
    rewrite !forecast_loop_fields, <- !dated_date_of.
    rewrite tally_dated, omap_dated.
    pose proof (total_tally (date_of (py "fecha")) rows).
    pose proof (dated_length (date_of (py "fecha")) rows).
    cbn [Forecast.per_day Forecast.min_date Forecast.max_date].
    split_and!; try done.
    intros Hex%Hstrict. rewrite <- dated_date_of in Hex. lia.
Qed.

(** A forecast file of three rows, the last without a date: [rows] is 3
    and the per-day values sum to 2. *)
Example rows_exceed_per_day_sum :
  let s := Forecast.loop (dict_rows
             [ [py "fecha"; py "collected_at"];
               [py "2024-01-01"; py "2024-01-01T06:00:00"];
               [py "2024-01-02"; py "2024-01-01T06:00:00"];
               [[]; py "2024-01-01T07:00:00"] ]) in
  Forecast.returned s !! py "rows" = Some (VInt 3)
  ∧ Forecast.per_day s = {[ py "2024-01-01" := 1; py "2024-01-02" := 1 ]}
  ∧ total (Forecast.per_day s) = 2
  ∧ Forecast.collected_at s = Some (py "2024-01-01T07:00:00").
Proof. by vm_compute. Qed.

(** ** Paths that do not exist *)

Lemma for_each_app {A} (xs ys : list A) (body : A → M unit) s :
  for_each (xs ++ ys) body s =
  match for_each xs body s with
  | (Ok _, s') => for_each ys body s'
  | (Raise e, s') => (Raise e, s')
  end.
Proof.
  revert s. induction xs as [|x xs IH]; intros s; [done|].
  cbn [app for_each]. unfold mbind, M_bind.
  destruct (body x s) as [[[]|e] s']; [apply IH|done].
Qed.

Lemma returns_print line : returns (print line).
Proof. intros s. by eexists. Qed.

Lemma returns_ret : returns (mret tt).
Proof. intros s. by eexists. Qed.

Lemma returns_bind (m k : M unit) : returns m → returns k → returns (m;; k).
Proof.
  intros Hm Hk s. destruct (Hm s) as [s' Hs']. destruct (Hk s') as [s'' Hs''].
  exists s''. unfold mbind, M_bind. by rewrite Hs'.
Qed.

Lemma returns_for_each {A} (xs : list A) (body : A → M unit) :
  (∀ x, returns (body x)) → returns (for_each xs body).
Proof.
  intros Hbody. induction xs as [|x xs IH]; [apply returns_ret|].
  by apply returns_bind.
Qed.

Lemma returns_emit_summary title st last_n :
  returns (emit_summary title st last_n).
Proof.
  unfold emit_summary.
  repeat first
    [ apply returns_bind | apply returns_print | apply returns_ret
    | apply returns_for_each; intros ? | case_match ].
Qed.

Lemma main_step_missing d label path s :
  d !! path = None →
  main_step d (label, path) s =
  (Ok tt, IO (stdout s ++ not_found_notice label path) (stderr s) (opened s)).
Proof.
  intros Hpath. unfold main_step, path_exists. rewrite Hpath. cbn [negb].
  run_io. unfold not_found_notice. by rewrite <- !app_assoc.
Qed.

Lemma main_step_gzip d label path recs :
  d !! path = Some (File Gzip recs) → returns (main_step d (label, path)).
Proof.
  intros Hpath s. unfold main_step, path_exists. rewrite Hpath. cbn [negb].
  unfold mbind at 1. unfold M_bind at 1.
  assert (∃ st, (if startswith (py "Hourly") label
                 then summarise_hourly_file d path
                 else if startswith (py "Forecast") label
                      then summarise_forecast d path
                      else summarise_daily_file d path (py "fecha")
                             (py "indicativo")) s
                = (Ok st, IO (stdout s) (stderr s) (opened s ++ [path])))
    as [st ->].
  { repeat case_match; eexists;
      unfold summarise_hourly_file, summarise_forecast, summarise_daily_file;
      by rewrite scan_file, Hpath. }
  apply returns_emit_summary.
Qed.

(** A run over paths that are missing or hold gzip files returns. *)
Lemma main_returns d paths :
  Forall (λ target, ∀ f, d !! target.2 = Some f → file_encoding f = Gzip) paths →
  returns (main d paths).
Proof.
  unfold main. induction 1 as [|[label path] paths Hpath _ IH];
    [apply returns_ret|].
  apply returns_bind; [|done]. simpl in Hpath.
  destruct (d !! path) as [[enc recs]|] eqn:E.
  - specialize (Hpath _ eq_refl). simpl in Hpath. subst enc.
    by eapply main_step_gzip.
  - intros s. eexists. by apply main_step_missing.
Qed.

(** X18. When the paths before it have been processed, a path that does
    not exist costs three lines on standard output (the header of the
    label, the notice, a blank line) right after their output; the run
    then goes on with the paths after it, in their order, and exits as
    that remainder does: with 0 whenever the remainder raises nothing, as
    when every one of its paths is missing or holds a gzip file. *)
Theorem missing_file_is_skipped d pre label path post s1 :
  d !! path = None →
  main d pre io0 = (Ok tt, s1) →
  let s2 :=
    IO (stdout s1 ++ [py "=== " ++ label ++ py " ===";
                      py "File not found: " ++ path; []])
       (stderr s1) (opened s1) in
  main d (pre ++ (label, path) :: post) io0 = main d post s2
  ∧ (run d (pre ++ (label, path) :: post)).1
    = exit_status (λ _, 0%Z) (main d post s2).1
  ∧ (Forall (λ target, ∀ f, d !! target.2 = Some f → file_encoding f = Gzip)
            post →
     (run d (pre ++ (label, path) :: post)).1 = 0%Z).
Proof.
  intros Hpath Hpre s2.
  assert (main d (pre ++ (label, path) :: post) io0 = main d post s2) as Hmain.
  { unfold main. rewrite for_each_app. fold (main d pre). rewrite Hpre.
    cbn [for_each]. unfold mbind, M_bind.
    by rewrite main_step_missing. }
  assert ((run d (pre ++ (label, path) :: post)).1
          = exit_status (λ _, 0%Z) (main d post s2).1) as Hrun.
  { unfold run. rewrite Hmain. by destruct (main d post s2). }
  split_and!; [done|done|].
  intros Hpost. rewrite Hrun.
  destruct (main_returns d post Hpost s2) as [s3 ->]. done.
Qed.

Lemma missing_file_is_skipped_witness :
  (run summary_example_disk (targets summary_example_args)).1 = 0%Z.
Proof.
  apply (missing_file_is_skipped summary_example_disk []
           (py "Historical Daily") (daily_historical summary_example_args)
           _ io0); [by vm_compute|done|].
  repeat constructor; intros f Hf; vm_compute in Hf; by simplify_eq.
Defined.

Example summary_example_run :
  run summary_example_disk (targets summary_example_args) =
  (0%Z,
   IO (py <$>
       [ "=== Historical Daily ===";
         "File not found: data/output/daily_station_historical_barcelona.csv.gz";
         EmptyString;
         "=== Hourly ===";
         "File not found: data/output/hourly_station_ongoing_barcelona.csv.gz";
         EmptyString;
         "=== Current Daily ===";
         "rows: 4"; "min_date: 2024-01-01"; "max_date: 2024-01-02";
         "stations_per_day (last 2 days):";
         "  2024-01-01: 2"; "  2024-01-02: 1";
         EmptyString;
         "=== Forecast ===";
         "rows: 4"; "min_date: 2024-01-01"; "max_date: 2024-01-02";
         "latest_collected_at: 2024-01-01T07:30:00";
         "rows_per_day (last 2 days):";
         "  2024-01-01: 3"; "  2024-01-02: 1";
         EmptyString ])
      []
      [ daily_current summary_example_args; forecast summary_example_args ]).
Proof. by vm_compute. Qed.

(** C7. The claim fails on the run [--daily-current daily.csv] over a disk
    that holds only that file, in plain text: the two missing paths before
    it get their notices, the read of the plain-text file raises
    [BadGzipFile], the missing forecast path after it gets no notice, and
    the process exits with status 1, not 0. *)
Theorem missing_path_after_plain_text_file_gets_no_notice :
  plain_example_disk !! forecast plain_example_args = None
  ∧ run plain_example_disk (targets plain_example_args) =
    (1%Z,
     IO (py <$>
         [ "=== Historical Daily ===";
           "File not found: data/output/daily_station_historical_barcelona.csv.gz";
           EmptyString;
           "=== Hourly ===";
           "File not found: data/output/hourly_station_ongoing_barcelona.csv.gz";
           EmptyString ])
        []
        [ py "daily.csv" ])
  ∧ (main plain_example_disk (targets plain_example_args) io0).1
    = Raise BadGzipFile.
Proof. split_and!; by vm_compute. Qed.
End SummarizeProofs.

(* ===================================================================== *)
(** * More about the coverage auditor *)
(* ===================================================================== *)

Module AuditExtras.
Import Py Notions PyFacts Audit AuditProofs.
Local Open Scope string_scope.
Local Open Scope list_scope.

(** ** What the two loaders collect *)

Lemma reference_fold_elem_of (rows : list row) (ids : gset str) (x : str) :
  x ∈ foldl reference_step ids rows ↔
  x ∈ ids ∨ ∃ r, r ∈ rows ∧ reference_id (get r (py "CUMUN")) = Some x.
Proof.
  revert ids. induction rows as [|r rows IH]; intros ids; simpl.
  - split; [by left|]. intros [?|(r & Hr & _)]; [done|].
    by apply elem_of_nil in Hr.
  - rewrite IH. unfold reference_step at 1.
    destruct (reference_id (get r (py "CUMUN"))) as [i|] eqn:Hi.
    + rewrite elem_of_union, elem_of_singleton. split.
      * intros [[->|?]|(r' & Hr' & Hx)]; [right|by left|right].
        -- exists r. split; [by left|done].
        -- exists r'. split; [by right|done].
      * intros [?|(r' & [->|Hr']%elem_of_cons & Hx)]; [by left; right| |].
        -- left; left. congruence.
        -- right. by exists r'.
    + split.
      * intros [?|(r' & Hr' & Hx)]; [by left|right].
        exists r'. split; [by right|done].
      * intros [?|(r' & [->|Hr']%elem_of_cons & Hx)]; [by left|congruence|].
        right. by exists r'.
Qed.

Lemma reference_fold_size (rows : list row) (ids : gset str) :
  (size (foldl reference_step ids rows) ≤ size ids + length rows)%nat.
Proof.
  revert ids. induction rows as [|r rows IH]; intros ids; simpl; [lia|].
  etrans; [apply IH|]. unfold reference_step.
  destruct (reference_id (get r (py "CUMUN"))); [|lia].
  rewrite size_union_alt, size_singleton.
  assert (size (ids ∖ {[s]}) ≤ size ids)%nat; [|lia].
  apply subseteq_size. intros k. set_unfold. tauto.
Qed.

Lemma forecast_fold_elem_of (rows : list row) (ids : gset str) (x : str) :
  x ∈ foldl forecast_step ids rows ↔
  x ∈ ids ∨ (x ≠ [] ∧ ∃ r, r ∈ rows ∧ get r (py "municipio_id") = Some x).
Proof.
  revert ids. induction rows as [|r rows IH]; intros ids; simpl.
  - split; [by left|]. intros [?|(_ & r & Hr & _)]; [done|].
    by apply elem_of_nil in Hr.
  - rewrite IH. unfold forecast_step at 1.
    destruct (get r (py "municipio_id")) as [[|c mid]|] eqn:Hmid; simpl.
    + split.
      * intros [?|(Hne & r' & Hr' & Hx)]; [by left|right].
        split; [done|]. exists r'. split; [by right|done].
      * intros [?|(Hne & r' & [->|Hr']%elem_of_cons & Hx)]; [by left|congruence|].
        right. split; [done|]. by exists r'.
    + rewrite elem_of_union, elem_of_singleton. split.
      * intros [[->|?]|(Hne & r' & Hr' & Hx)]; [right|by left|right].
        -- split; [done|]. exists r. split; [by left|done].
        -- split; [done|]. exists r'. split; [by right|done].
      * intros [?|(Hne & r' & [->|Hr']%elem_of_cons & Hx)]; [by left; right| |].
        -- left; left. congruence.
        -- right. split; [done|]. by exists r'.
    + split.
      * intros [?|(Hne & r' & Hr' & Hx)]; [by left|right].
        split; [done|]. exists r'. split; [by right|done].
      * intros [?|(Hne & r' & [->|Hr']%elem_of_cons & Hx)]; [by left|congruence|].
        right. split; [done|]. by exists r'.
Qed.

(** A loader that returns has read its file. *)
Lemma load_reference_ids_Ok d p s R s' :
  load_reference_ids d p s = (Ok R, s') →
  ∃ recs, d !! p = Some (File Gzip recs)
          ∧ header_lacks (py "CUMUN") recs = false
          ∧ R = foldl reference_step ∅ (dict_rows recs).
Proof.
  rewrite load_reference_ids_cases.
  destruct (d !! p) as [[[] recs]|]; [| |done].
  - destruct (header_lacks _ recs) eqn:E; [done|]. intros [= <- _]. by exists recs.
  - destruct recs; [|done]. done.
Qed.

Lemma load_forecast_ids_Ok d p s F s' :
  load_forecast_ids d p s = (Ok F, s') →
  ∃ recs, d !! p = Some (File Plain recs)
          ∧ header_lacks (py "municipio_id") recs = false
          ∧ F = foldl forecast_step ∅ (dict_rows recs).
Proof.
  rewrite load_forecast_ids_cases.
  destruct (d !! p) as [[[] recs]|]; [done| |done].
  destruct (header_lacks _ recs) eqn:E; [done|]. intros [= <- _]. by exists recs.
Qed.

Lemma reference_id_normal raw i :
  reference_id raw = Some i →
  (5 ≤ length i)%nat ∧ no_space_at (head i) ∧ no_space_at (last i).
Proof.
  destruct raw as [raw|]; [|done]. unfold reference_id.
  destruct (truthy (strip raw)); [|done]. intros [= <-].
  destruct (strip_ends raw) as [Hh Hl].
  split; [apply zfill_length|by apply zfill_ends].
Qed.

Lemma reference_ids_loaded_facts d path s R s' :
  load_reference_ids d path s = (Ok R, s') →
  ∃ recs,
    d !! path = Some (File Gzip recs)
    ∧ (∀ x, x ∈ R ↔
            ∃ r, r ∈ dict_rows recs
                 ∧ reference_id (get r (py "CUMUN")) = Some x)
    ∧ (size R ≤ length (dict_rows recs))%nat
    ∧ (∀ x, x ∈ R →
            (5 ≤ length x)%nat
            ∧ strip x = x
            ∧ reference_id (Some x) = Some x).
Proof.
  intros (recs & Hfile & _ & ->)%load_reference_ids_Ok.
  exists recs. split; [done|].
  assert (∀ x, x ∈ foldl reference_step ∅ (dict_rows recs) ↔
               ∃ r, r ∈ dict_rows recs
                    ∧ reference_id (get r (py "CUMUN")) = Some x) as Hmem.
  { intros x. rewrite reference_fold_elem_of. split; [|by right].
    intros [Hx|?]; [|done]. by apply elem_of_empty in Hx. }
  split_and!; [done| |].
  - pose proof (reference_fold_size (dict_rows recs) ∅) as Hsize.
    by rewrite size_empty in Hsize.
  - intros x (r & _ & Hx)%Hmem.
    destruct (reference_id_normal _ _ Hx) as (Hlen & Hh & Hl).
    split_and!; [done|by apply strip_fixed|].
    unfold reference_id. rewrite (strip_fixed x Hh Hl), zfill_fixed by done.
    destruct x; [simpl in Hlen; lia|done].
Qed.

(** X1. When [load_reference_ids] returns, its set holds exactly the
    identifiers of the [CUMUN] cells of the rows (stripped and padded;
    missing and blank cells give none), so duplicates collapse and the set
    is no larger than the number of rows; every identifier in it has at
    least five characters, no white space at either end, and is its own
    normal form. *)
Theorem reference_ids_loaded d path s R s' :
  load_reference_ids d path s = (Ok R, s') →
  ∃ recs,
    d !! path = Some (File Gzip recs)
    ∧ (∀ x, x ∈ R ↔
            ∃ r, r ∈ dict_rows recs
                 ∧ reference_id (get r (py "CUMUN")) = Some x)
    ∧ (size R ≤ length (dict_rows recs))%nat
    ∧ (∀ x, x ∈ R →
            (5 ≤ length x)%nat
            ∧ strip x = x
            ∧ reference_id (Some x) = Some x).
Proof. apply reference_ids_loaded_facts. Qed.

Lemma reference_ids_loaded_witness :
  ∃ recs,
    audit_example_disk !! REF_PATH audit_example_root = Some (File Gzip recs)
    ∧ (∀ x, x ∈ (list_to_set (py <$> ["00001"; "01234"; "05000"]) : gset str) ↔
            ∃ r, r ∈ dict_rows recs
                 ∧ reference_id (get r (py "CUMUN")) = Some x)
    ∧ (size (list_to_set (py <$> ["00001"; "01234"; "05000"]) : gset str)
       ≤ length (dict_rows recs))%nat
    ∧ (∀ x, x ∈ (list_to_set (py <$> ["00001"; "01234"; "05000"]) : gset str) →
            (5 ≤ length x)%nat
            ∧ strip x = x
            ∧ reference_id (Some x) = Some x).
Proof.
  apply (reference_ids_loaded audit_example_disk (REF_PATH audit_example_root)
           io0 _ (IO [] [] [REF_PATH audit_example_root])).
  by vm_compute.
Defined.

(** X2. When [load_forecast_ids] returns, its set holds exactly the
    non-empty [municipio_id] cells of the rows, as they are: nothing is
    stripped or padded. *)
Theorem forecast_ids_loaded d path s F s' :
  load_forecast_ids d path s = (Ok F, s') →
  ∃ recs,
    d !! path = Some (File Plain recs)
    ∧ (∀ x, x ∈ F ↔
            x ≠ [] ∧ ∃ r, r ∈ dict_rows recs
                          ∧ get r (py "municipio_id") = Some x).
Proof.
  intros (recs & Hfile & _ & ->)%load_forecast_ids_Ok.
  exists recs. split; [done|].
  intros x. rewrite forecast_fold_elem_of. split; [|by right].
  intros [Hx|?]; [|done]. by apply elem_of_empty in Hx.
Qed.

Lemma forecast_ids_loaded_witness :
  ∃ recs,
    audit_example_disk !! FORECAST_PATH audit_example_root
    = Some (File Plain recs)
    ∧ (∀ x, x ∈ (list_to_set (py <$> ["00001"; "05000"]) : gset str) ↔
            x ≠ [] ∧ ∃ r, r ∈ dict_rows recs
                          ∧ get r (py "municipio_id") = Some x).
Proof.
  apply (forecast_ids_loaded audit_example_disk
           (FORECAST_PATH audit_example_root) io0 _
           (IO [] [] [FORECAST_PATH audit_example_root])).
  by vm_compute.
Defined.

(** X3. A forecast identifier that is not in normal form (shorter than
    five characters, or with white space around it) covers no reference
    identifier: with or without it in the forecast set, [missing] is the
    same. *)
Theorem unnormalized_forecast_id_covers_nothing d path s R s' F E x :
  load_reference_ids d path s = (Ok R, s') →
  reference_id (Some x) ≠ Some x →
  missing_of R ({[ x ]} ∪ F) E = missing_of R F E.
Proof.
  intros (recs & _ & _ & _ & Hnormal)%reference_ids_loaded_facts Hx.
  unfold missing_of. f_equal. f_equal.
  apply set_eq. intros y. rewrite !elem_of_difference, elem_of_union, elem_of_singleton.
  split; [tauto|]. intros [[Hy HF] HE]. split_and!; [done| |done].
  intros [->|?]; [|done]. by destruct Hx, (Hnormal x Hy) as (_ & _ & ?).
Qed.

Lemma unnormalized_forecast_id_covers_nothing_witness :
  missing_of (list_to_set (py <$> ["00001"; "01234"; "05000"]))
             ({[ py "1234" ]} ∪ list_to_set (py <$> ["00001"; "05000"]))
             EXPECTED_ABSENT
  = missing_of (list_to_set (py <$> ["00001"; "01234"; "05000"]))
               (list_to_set (py <$> ["00001"; "05000"]))
               EXPECTED_ABSENT.
Proof.
  apply (unnormalized_forecast_id_covers_nothing audit_example_disk
           (REF_PATH audit_example_root) io0 _
           (IO [] [] [REF_PATH audit_example_root])).
  - by vm_compute.
  - intros Heq. vm_compute in Heq. discriminate.
Defined.

(** ** Failures of the forecast file *)

Lemma load_reference_ids_io0 d p R s1 :
  load_reference_ids d p io0 = (Ok R, s1) → s1 = IO [] [] [p].
Proof.
  rewrite load_reference_ids_cases. intros Hload.
  repeat case_match; by simplify_eq.
Qed.

(** X4. With the reference identifiers loaded, a forecast file that does
    not exist, or whose header has no [municipio_id] column, ends the run
    with status 2: one error line on standard error, nothing on standard
    output, the reference file opened first. *)
Theorem forecast_failure_exits_2 root d R s1 :
  load_reference_ids d (REF_PATH root) io0 = (Ok R, s1) →
  (d !! FORECAST_PATH root = None
   ∨ (∃ recs, d !! FORECAST_PATH root = Some (File Plain recs)
              ∧ (∀ names, fieldnames recs = Some names →
                          py "municipio_id" ∉ names))) →
  (run root d).1 = 2%Z
  ∧ stdout (run root d).2 = []
  ∧ length (stderr (run root d).2) = 1%nat
  ∧ head (opened (run root d).2) = Some (REF_PATH root).
Proof.
  intros Href Hforecast. unfold run, main, mbind, M_bind.
  rewrite Href, (load_reference_ids_io0 _ _ _ _ Href), load_forecast_ids_cases.
  destruct Hforecast as [->|(recs & -> & Hnames)]; [done|].
  by rewrite header_lacks_true.
Qed.

Lemma forecast_failure_exits_2_witness :
  (run audit_example_root
       (delete (FORECAST_PATH audit_example_root) audit_example_disk)).1 = 2%Z
  ∧ (run audit_example_root
       (<[FORECAST_PATH audit_example_root :=
            File Plain [[py "municipio"; py "fecha"];
                        [py "08019"; py "2024-01-01"]]]>
          audit_example_disk)).1 = 2%Z.
Proof.
  split.
  - apply (forecast_failure_exits_2 audit_example_root _
             (list_to_set (py <$> ["00001"; "01234"; "05000"]))
             (IO [] [] [REF_PATH audit_example_root])); [by vm_compute|].
    left. by vm_compute.
  - apply (forecast_failure_exits_2 audit_example_root _
             (list_to_set (py <$> ["00001"; "01234"; "05000"]))
             (IO [] [] [REF_PATH audit_example_root])); [by vm_compute|].
    right.
    exists [[py "municipio"; py "fecha"]; [py "08019"; py "2024-01-01"]].
    split; [by vm_compute|].
    intros names [= <-] Hin%list_elem_of_In. vm_compute in Hin.
    intuition discriminate.
Defined.

(** X5. The forecast file is read as plain UTF-8 text and never
    decompressed: if it is gzip-compressed, the first read raises, and the
    run ends with status 1 after opening both files, with no report. *)
Theorem gzip_forecast_file_raises root d R s1 recs :
  load_reference_ids d (REF_PATH root) io0 = (Ok R, s1) →
  d !! FORECAST_PATH root = Some (File Gzip recs) →
  (main root d io0).1 = Raise UnicodeDecodeError
  ∧ run root d = (1%Z, IO [] [] [REF_PATH root; FORECAST_PATH root]).
Proof.
  intros Href Hforecast. unfold run, main, mbind, M_bind.
  rewrite Href, (load_reference_ids_io0 _ _ _ _ Href), load_forecast_ids_cases.
  by rewrite Hforecast.
Qed.

Lemma gzip_forecast_file_raises_witness :
  (run audit_example_root
       (<[FORECAST_PATH audit_example_root :=
            File Gzip [[py "municipio_id"]; [py "00001"]; [py "01234"];
                       [py "05000"]]]>
          audit_example_disk)).1 = 1%Z.
Proof.
  pose proof (gzip_forecast_file_raises audit_example_root
           (<[FORECAST_PATH audit_example_root :=
                File Gzip [[py "municipio_id"]; [py "00001"]; [py "01234"];
                           [py "05000"]]]>
              audit_example_disk)
           (list_to_set (py <$> ["00001"; "01234"; "05000"]))
           (IO [] [] [REF_PATH audit_example_root])
           [[py "municipio_id"]; [py "00001"]; [py "01234"]; [py "05000"]])
    as Hrun.
  destruct Hrun as [_ ->]; by vm_compute.
Defined.

(** ** Coverage as set inclusion *)

Lemma sorted_nil (X : gset str) : sorted (elements X) = [] ↔ X = ∅.
Proof.
  split.
  - intros Hnil. apply set_eq. intros x.
    rewrite <- sorted_elem_of, Hnil. set_unfold. tauto.
  - intros ->. by vm_compute.
Qed.

Lemma sorted_length (X : gset str) : length (sorted (elements X)) = size X.
Proof. unfold sorted. by rewrite merge_sort_Permutation. Qed.

Lemma missing_nil_iff (R F E : gset str) :
  missing_of R F E = [] ↔ R ⊆ F ∪ E.
Proof.
  unfold missing_of. rewrite sorted_nil. split.
  - intros Hempty x Hx. apply elem_of_union.
    destruct (decide (x ∈ F)) as [|HF]; [by left|right].
    destruct (decide (x ∈ E)) as [|HE]; [done|].
    assert (x ∈ R ∖ F ∖ E) as Hin by (rewrite !elem_of_difference; tauto).
    rewrite Hempty in Hin. by apply elem_of_empty in Hin.
  - intros Hsub. apply set_eq. intros x.
    rewrite !elem_of_difference. split; [|by intros ?%elem_of_empty].
    intros [[HR HF] HE]. apply Hsub, elem_of_union in HR. tauto.
Qed.

Lemma missing_length (R F E : gset str) :
  length (missing_of R F E) = size (R ∖ (F ∪ E)).
Proof.
  unfold missing_of. rewrite sorted_length. f_equal. apply set_eq. intros x.
  rewrite !elem_of_difference, elem_of_union. tauto.
Qed.

(** X6. With both sets loaded, the auditor exits with 0 exactly when every
    reference identifier is in the forecast set or in the expected-absent
    set; the number of missing identifiers it reports is the number of
    reference identifiers outside both. *)
Theorem exit_0_iff_covered root d R F s1 s2 :
  load_reference_ids d (REF_PATH root) io0 = (Ok R, s1) →
  load_forecast_ids d (FORECAST_PATH root) s1 = (Ok F, s2) →
  ((run root d).1 = 0%Z ↔ R ⊆ F ∪ EXPECTED_ABSENT)
  ∧ length (missing_of R F EXPECTED_ABSENT)
    = size (R ∖ (F ∪ EXPECTED_ABSENT)).
Proof.
  intros H1 H2. unfold run.
  rewrite (main_loaded _ _ _ _ _ _ H1 H2), report_run.
  cbn [fst exit_status]. unfold report_code.
  split; [|apply missing_length].
  rewrite <- missing_nil_iff.
  generalize (missing_of R F EXPECTED_ABSENT). by intros [|x l].
Qed.

Lemma exit_0_iff_covered_witness :
  ¬ (list_to_set (py <$> ["00001"; "01234"; "05000"]) : gset str)
    ⊆ list_to_set (py <$> ["00001"; "05000"]) ∪ EXPECTED_ABSENT
  ∧ length (missing_of (list_to_set (py <$> ["00001"; "01234"; "05000"]))
                       (list_to_set (py <$> ["00001"; "05000"]))
                       EXPECTED_ABSENT) = 1%nat.
Proof.
  destruct (exit_0_iff_covered audit_example_root audit_example_disk
              (list_to_set (py <$> ["00001"; "01234"; "05000"]))
              (list_to_set (py <$> ["00001"; "05000"]))
              (IO [] [] [REF_PATH audit_example_root])
              (IO [] [] [REF_PATH audit_example_root;
                         FORECAST_PATH audit_example_root]))
    as [Hiff Hlen]; [by vm_compute|by vm_compute|].
  split; [|by vm_compute].
  intros Hsub. apply Hiff in Hsub. vm_compute in Hsub. discriminate.
Defined.

(** X7. [missing] only shrinks when the forecast set or the
    expected-absent set grows or the reference set shrinks; in particular
    more forecast identifiers never turn a passing audit into a failing
    one. *)
Theorem missing_is_monotone (R R' F F' E E' : gset str) :
  R' ⊆ R → F ⊆ F' → E ⊆ E' →
  (∀ x, x ∈ missing_of R' F' E' → x ∈ missing_of R F E)
  ∧ (missing_of R F E = [] → missing_of R' F' E' = []).
Proof.
  intros HR HF HE.
  assert (R' ∖ F' ∖ E' ⊆ R ∖ F ∖ E) as Hsub.
  { intros x. rewrite !elem_of_difference. intros [[HxR HxF] HxE].
    split_and!; [by apply HR| |]; intros Hx; [by apply HxF, HF|by apply HxE, HE]. }
  unfold missing_of. split.
  - intros x. rewrite !sorted_elem_of. apply Hsub.
  - rewrite !sorted_nil. intros Hempty. apply set_eq. intros x.
    split; [|by intros ?%elem_of_empty].
    intros Hx%Hsub. by rewrite Hempty in Hx.
Qed.

Lemma missing_is_monotone_witness :
  missing_of (list_to_set (py <$> ["00001"; "01234"]))
             (list_to_set (py <$> ["00001"; "01234"; "05000"]))
             EXPECTED_ABSENT = [].
Proof.
  apply (missing_is_monotone
           (list_to_set (py <$> ["00001"; "01234"]))
           (list_to_set (py <$> ["00001"; "01234"]))
           (list_to_set (py <$> ["00001"; "01234"]))
           (list_to_set (py <$> ["00001"; "01234"; "05000"]))
           EXPECTED_ABSENT EXPECTED_ABSENT).
  - done.
  - apply (bool_decide_unpack _). by vm_compute.
  - done.
  - by vm_compute.
Defined.
End AuditExtras.

(* ===================================================================== *)
(** * More about the dataset summarizer *)
(* ===================================================================== *)

Module SummarizeExtras.
Import Py Notions MoreNotions PyFacts Summarize SummarizeProofs.
Local Open Scope string_scope.
Local Open Scope list_scope.
Local Open Scope nat_scope.

(** ** Opening *)

(** X8. [open_text] returns the gzip reader for every path that exists,
    whatever the file holds, and raises [FileNotFoundError] for a path
    that does not: it never returns a plain-text reader. *)
Theorem open_text_never_plain d path s :
  open_text d path s =
  match d !! path with
  | Some f => (Ok (GzipText f), IO (stdout s) (stderr s) (opened s ++ [path]))
  | None => (Raise (FileNotFoundError path), s)
  end.
Proof.
  unfold open_text, try_except_OSError, gzip_open, text_open.
  destruct (d !! path) as [f|]; by run_io.
Qed.

(** ** What a run can end with *)









Lemma run_status_example :
  (run plain_example_disk
       [(py "Hourly", py "hourly.csv.gz"); (py "Current Daily", py "daily.csv")]).1
  = 1%Z.
Proof. by vm_compute. Qed.

(** ** The daily and hourly summaries in full *)

Lemma group_counts_lookup day_of key_col rows day :
  per_day_counts (group day_of (λ r, get r key_col) rows) !! day =
  match rows_of day_of day rows with
  | [] => None
  | rs => Some (distinct_keys key_col rs)
  end.
Proof.
  unfold per_day_counts. rewrite lookup_fmap, group_lookup.
  by destruct (rows_of day_of day rows).
Qed.

(** X10. A daily file that is read yields: under [rows] the number of
    rows; under [per_day_counts], for every non-empty date some row
    bears, the number of distinct station values among the rows of that
    date (a missing cell and an empty cell each count as a value), and no
    entry for any other date; under [min_date] and [max_date] the least
    and the greatest non-empty date. *)
Theorem daily_summary_spec d path date_col station_col recs s :
  d !! path = Some (File Gzip recs) →
  let rows := dict_rows recs in
  ∃ st counts,
    (summarise_daily_file d path date_col station_col s).1 = Ok st
    ∧ st !! py "rows" = Some (VInt (length rows))
    ∧ st !! py "per_day_counts" = Some (VDict counts)
    ∧ (∀ day, day ≠ [] →
         counts !! day =
         match filter (λ r, get r date_col = Some day) rows with
         | [] => None
         | rs => Some (distinct_keys station_col rs)
         end)
    ∧ counts !! [] = None
    ∧ holds_min (column_values date_col rows) (st !! py "min_date")
    ∧ holds_max (column_values date_col rows) (st !! py "max_date").
Proof.
  intros Hfile rows. unfold summarise_daily_file.
  rewrite scan_file, Hfile. cbn [fst]. fold rows.
  rewrite daily_loop_fields. eexists _, _. split; [done|].
  unfold Daily.returned.
  cbn [Daily.per_day Daily.min_date Daily.max_date Daily.total_rows].
  split_and!; [done|done| | |apply holds_min_of|apply holds_max_of].
  - intros day Hday. by rewrite group_counts_lookup, rows_of_date.
  - by rewrite group_counts_lookup, rows_of_empty_day.
Qed.

Lemma daily_summary_spec_witness :
  ∃ st counts,
    (summarise_daily_file daily_example_disk (py "daily.csv.gz")
       (py "fecha") (py "indicativo") io0).1 = Ok st
    ∧ st !! py "per_day_counts" = Some (VDict counts)
    ∧ counts !! py "2024-01-01" = Some 2
    ∧ counts !! py "2024-01-03" = None.
Proof.
  destruct (daily_summary_spec daily_example_disk (py "daily.csv.gz")
              (py "fecha") (py "indicativo") daily_example_records io0)
    as (st & counts & Hst & _ & Hcounts & Hday & _); [reflexivity|].
  exists st, counts.
  split_and!; [done|done|rewrite Hday..]; by vm_compute.
Defined.

Lemma hour_day_short r day : hour_day r = Some day → day ≠ [] ∧ length day ≤ 10.
Proof.
  unfold hour_day, date_of, prefix_slice.
  destruct (get r (py "fint")) as [[|c v]|]; [done| |done].
  intros [= <-]. split; [done|].
  change (length (take 10 (c :: v)) ≤ 10). rewrite length_take. lia.
Qed.

(** X11. An hourly file that is read yields: under [rows] the number of
    rows; under [per_day_counts], for every day (the first ten characters
    of a non-empty [fint]) the number of distinct [idema] values among the
    rows of that day, every key being non-empty and of at most ten
    characters; under [min_ts] and [max_ts] the least and the greatest
    non-empty [fint], compared in full. *)
Theorem hourly_summary_spec d path recs s :
  d !! path = Some (File Gzip recs) →
  let rows := dict_rows recs in
  ∃ st counts,
    (summarise_hourly_file d path s).1 = Ok st
    ∧ st !! py "rows" = Some (VInt (length rows))
    ∧ st !! py "per_day_counts" = Some (VDict counts)
    ∧ (∀ day,
         counts !! day =
         match filter (λ r, hour_day r = Some day) rows with
         | [] => None
         | rs => Some (distinct_keys (py "idema") rs)
         end)
    ∧ (∀ day n, counts !! day = Some n → day ≠ [] ∧ length day ≤ 10)
    ∧ holds_min (column_values (py "fint") rows) (st !! py "min_ts")
    ∧ holds_max (column_values (py "fint") rows) (st !! py "max_ts").
Proof.
  intros Hfile rows. unfold summarise_hourly_file.
  rewrite scan_file, Hfile. cbn [fst]. fold rows.
  rewrite hourly_loop_fields. eexists _, _. split; [done|].
  unfold Hourly.returned.
  cbn [Hourly.per_day Hourly.min_ts Hourly.max_ts Hourly.total_rows].
  split_and!; [done|done| | |apply holds_min_of|apply holds_max_of].
  - intros day. apply group_counts_lookup.
  - intros day n. rewrite group_counts_lookup.
    destruct (rows_of hour_day day rows) as [|r rs] eqn:E; [done|]. intros _.
    assert (r ∈ rows_of hour_day day rows) as Hr by (rewrite E; by left).
    apply list_elem_of_filter in Hr as [Hr _]. by eapply hour_day_short.
Qed.

Lemma hourly_summary_spec_witness :
  ∃ st counts,
    (summarise_hourly_file hourly_example_disk (py "hourly.csv.gz") io0).1
    = Ok st
    ∧ st !! py "per_day_counts" = Some (VDict counts)
    ∧ counts !! py "2024-01-01" = Some 2
    ∧ counts !! py "2024-01-02" = Some 1.
Proof.
  destruct (hourly_summary_spec hourly_example_disk (py "hourly.csv.gz")
              hourly_example_records io0)
    as (st & counts & Hst & _ & Hcounts & Hday & _); [reflexivity|].
  exists st, counts.
  split_and!; [done|done|rewrite Hday..]; by vm_compute.
Defined.

(** ** The range and the days *)

Lemma str_cmp_take n a b :
  str_cmp a b ≠ Gt → str_cmp (take n a) (take n b) ≠ Gt.
Proof.
  revert a b. induction n as [|n IH]; intros [|x a] [|y b]; simpl; try done.
  destruct (N.compare x y); [apply IH|done|done].
Qed.

(** Cutting two strings to the same length keeps their order. *)
Lemma str_le_take n a b : str_le a b → str_le (take n a) (take n b).
Proof.
  unfold str_le, str_lt. intros Hab.
  pose proof (str_cmp_take n a b) as Htake.
  rewrite (str_cmp_antisym a b) in Hab.
  rewrite (str_cmp_antisym (take n a) (take n b)).
  destruct (str_cmp a b); try done;
    destruct (str_cmp (take n a) (take n b)); try done; by destruct Htake.
Qed.

Lemma rows_of_nonempty day_of day rows :
  rows_of day_of day rows ≠ [] ↔ day ∈ omap day_of rows.
Proof.
  rewrite list_elem_of_omap. unfold rows_of. split.
  - destruct (filter _ rows) as [|r rs] eqn:E; [done|]. intros _.
    assert (r ∈ filter (λ r, day_of r = Some day) rows) as Hr
      by (rewrite E; by left).
    apply list_elem_of_filter in Hr as [Hday Hr]. by exists r.
  - intros (r & Hr & Hday) Hnil.
    assert (r ∈ filter (λ r, day_of r = Some day) rows) as Hin
      by (by apply list_elem_of_filter).
    rewrite Hnil in Hin. by apply elem_of_nil in Hin.
Qed.

Lemma group_is_Some day_of key_of rows day :
  is_Some (group day_of key_of rows !! day) ↔ day ∈ omap day_of rows.
Proof.
  rewrite group_lookup, <- rows_of_nonempty.
  destruct (rows_of day_of day rows); split; try done; by intros [? ?].
Qed.

Lemma tally_is_Some day_of rows day :
  is_Some (tally day_of rows !! day) ↔ day ∈ omap day_of rows.
Proof.
  rewrite tally_lookup, <- rows_of_nonempty.
  destruct (rows_of day_of day rows); split; try done; by intros [? ?].
Qed.

Lemma min_max_bracket xs x :
  x ∈ xs →
  ∃ lo hi, min_of xs = Some lo ∧ max_of xs = Some hi
           ∧ str_le lo x ∧ str_le x hi.
Proof.
  intros Hx.
  destruct (min_of xs) as [lo|] eqn:Hlo;
    [|apply min_of_None in Hlo; subst; by apply elem_of_nil in Hx].
  destruct (max_of xs) as [hi|] eqn:Hhi;
    [|apply max_of_None in Hhi; subst; by apply elem_of_nil in Hx].
  apply min_of_Some in Hlo as [_ Hlo]. apply max_of_Some in Hhi as [_ Hhi].
  rewrite Forall_forall in Hlo, Hhi. exists lo, hi. auto.
Qed.

Lemma omap_hour_day (rows : list row) :
  omap hour_day rows = prefix_slice 10 <$> omap (date_of (py "fint")) rows.
Proof.
  induction rows as [|r rows IH]; [done|]. simpl.
  unfold hour_day at 1. destruct (date_of (py "fint") r); simpl;
    [f_equal|]; apply IH.
Qed.

(** X12. The range a summary reports brackets the days it lists: the
    least and the greatest date are themselves days of the per-day map and
    every day of the map lies between them; for an hourly file the same
    holds with the first ten characters of the least and greatest
    timestamp. *)
Theorem range_brackets_days date_col station_col rows :
  (let s := Daily.loop date_col station_col rows in
   (∀ day, is_Some (Daily.per_day s !! day) →
      ∃ lo hi, Daily.min_date s = Some lo ∧ Daily.max_date s = Some hi
               ∧ str_le lo day ∧ str_le day hi)
   ∧ (∀ lo, Daily.min_date s = Some lo → is_Some (Daily.per_day s !! lo))
   ∧ (∀ hi, Daily.max_date s = Some hi → is_Some (Daily.per_day s !! hi)))
  ∧ (let s := Hourly.loop rows in
     (∀ day, is_Some (Hourly.per_day s !! day) →
        ∃ lo hi, Hourly.min_ts s = Some lo ∧ Hourly.max_ts s = Some hi
                 ∧ str_le (prefix_slice 10 lo) day
                 ∧ str_le day (prefix_slice 10 hi))
     ∧ (∀ lo, Hourly.min_ts s = Some lo →
              is_Some (Hourly.per_day s !! prefix_slice 10 lo))
     ∧ (∀ hi, Hourly.max_ts s = Some hi →
              is_Some (Hourly.per_day s !! prefix_slice 10 hi)))
  ∧ (let s := Forecast.loop rows in
     (∀ day, is_Some (Forecast.per_day s !! day) →
        ∃ lo hi, Forecast.min_date s = Some lo ∧ Forecast.max_date s = Some hi
                 ∧ str_le lo day ∧ str_le day hi)
     ∧ (∀ lo, Forecast.min_date s = Some lo →
              is_Some (Forecast.per_day s !! lo))
     ∧ (∀ hi, Forecast.max_date s = Some hi →
              is_Some (Forecast.per_day s !! hi))).
Proof.
  split_and!.
  - rewrite daily_loop_fields.
    cbn [Daily.per_day Daily.min_date Daily.max_date]. split_and!.
    + intros day Hday%group_is_Some. by apply min_max_bracket.
    + intros lo [Hlo _]%min_of_Some. by apply group_is_Some.
    + intros hi [Hhi _]%max_of_Some. by apply group_is_Some.
  - rewrite hourly_loop_fields.
    cbn [Hourly.per_day Hourly.min_ts Hourly.max_ts]. split_and!.
    + intros day Hday%group_is_Some. rewrite omap_hour_day in Hday.
      apply list_elem_of_fmap in Hday as (ts & -> & Hts).
      destruct (min_max_bracket _ _ Hts) as (lo & hi & Hlo & Hhi & Hle1 & Hle2).
      exists lo, hi. unfold prefix_slice. auto using str_le_take.
    + intros lo [Hlo _]%min_of_Some. apply group_is_Some.
      rewrite omap_hour_day. by apply list_elem_of_fmap_2.
    + intros hi [Hhi _]%max_of_Some. apply group_is_Some.
      rewrite omap_hour_day. by apply list_elem_of_fmap_2.
  - rewrite forecast_loop_fields.
    cbn [Forecast.per_day Forecast.min_date Forecast.max_date]. split_and!.
    + intros day Hday%tally_is_Some. by apply min_max_bracket.
    + intros lo [Hlo _]%min_of_Some. by apply tally_is_Some.
    + intros hi [Hhi _]%max_of_Some. by apply tally_is_Some.
Qed.

(** ** The order of the rows *)

Lemma min_of_perm xs ys : xs ≡ₚ ys → min_of xs = min_of ys.
Proof.
  intros Hperm.
  destruct (min_of xs) as [m|] eqn:Hxs, (min_of ys) as [m'|] eqn:Hys.
  - apply min_of_Some in Hxs as [Hin Hall]. apply min_of_Some in Hys as [Hin' Hall'].
    rewrite Forall_forall in Hall, Hall'. f_equal.
    apply (anti_symm str_le).
    + apply Hall. by rewrite Hperm.
    + apply Hall'. by rewrite <- Hperm.
  - apply min_of_None in Hys. subst ys. apply Permutation_nil_r in Hperm.
    subst xs. done.
  - apply min_of_None in Hxs. subst xs. apply Permutation_nil_l in Hperm.
    subst ys. done.
  - done.
Qed.

Lemma max_of_perm xs ys : xs ≡ₚ ys → max_of xs = max_of ys.
Proof.
  intros Hperm.
  destruct (max_of xs) as [m|] eqn:Hxs, (max_of ys) as [m'|] eqn:Hys.
  - apply max_of_Some in Hxs as [Hin Hall]. apply max_of_Some in Hys as [Hin' Hall'].
    rewrite Forall_forall in Hall, Hall'. f_equal.
    apply (anti_symm str_le).
    + apply Hall'. by rewrite <- Hperm.
    + apply Hall. by rewrite Hperm.
  - apply max_of_None in Hys. subst ys. apply Permutation_nil_r in Hperm.
    subst xs. done.
  - apply max_of_None in Hxs. subst xs. apply Permutation_nil_l in Hperm.
    subst ys. done.
  - done.
Qed.

Lemma group_perm day_of key_of rows rows' :
  rows ≡ₚ rows' → group day_of key_of rows = group day_of key_of rows'.
Proof.
  intros Hperm. apply map_eq. intros day. rewrite !group_lookup.
  assert (rows_of day_of day rows ≡ₚ rows_of day_of day rows') as Hrows
    by (unfold rows_of; by rewrite Hperm).
  destruct (rows_of day_of day rows) as [|r rs],
           (rows_of day_of day rows') as [|r' rs'].
  - done.
  - by apply Permutation_nil_l in Hrows.
  - by apply Permutation_nil_r in Hrows.
  - f_equal. apply set_eq. intros k.
    rewrite !elem_of_list_to_set. by rewrite Hrows.
Qed.

Lemma tally_perm day_of rows rows' :
  rows ≡ₚ rows' → tally day_of rows = tally day_of rows'.
Proof.
  intros Hperm. apply map_eq. intros day. rewrite !tally_lookup.
  unfold rows_of. by rewrite Hperm.
Qed.

(** X13. The three loops do not depend on the order of the rows: two
    files with the same rows in a different order have the same totals,
    range and per-day values. *)
Theorem summaries_ignore_row_order (date_col station_col : str)
    (rows rows' : list row) :
  rows ≡ₚ rows' →
  Daily.loop date_col station_col rows = Daily.loop date_col station_col rows'
  ∧ Hourly.loop rows = Hourly.loop rows'
  ∧ Forecast.loop rows = Forecast.loop rows'.
Proof.
  intros Hperm.
  rewrite !daily_loop_fields, !hourly_loop_fields, !forecast_loop_fields.
  split_and!; f_equal;
    first [ by apply group_perm | by apply tally_perm
          | apply min_of_perm; by rewrite Hperm
          | apply max_of_perm; by rewrite Hperm
          | by rewrite Hperm ].
Qed.

Lemma summaries_ignore_row_order_witness :
  Forecast.loop (dict_rows forecast_example_records)
  = Forecast.loop (reverse (dict_rows forecast_example_records)).
Proof.
  apply (summaries_ignore_row_order (py "fecha") (py "indicativo")).
  symmetry. apply reverse_Permutation.
Defined.

(** ** The per-day block of a summary *)

Lemma item_le_iff (a b : str * nat) :
  item_le a b ↔ str_lt a.1 b.1 = true ∨ (a.1 = b.1 ∧ a.2 ≤ b.2).
Proof.
  unfold item_le, item_lt. destruct (decide (b.1 = a.1)) as [Heq|Hne].
  - rewrite bool_decide_eq_false, Heq, str_lt_irrefl. split.
    + intros Hlt. right. split; [done|lia].
    + intros [?|[_ Hle]]; [done|lia].
  - change (str_lt b.1 a.1 = false) with (str_le a.1 b.1).
    rewrite str_le_lt_eq. split; [|tauto].
    intros [?|Heq]; [by left|]. by destruct Hne.
Qed.

Global Instance item_le_total : Total item_le.
Proof.
  intros a b. rewrite !item_le_iff.
  destruct (base.total str_le a.1 b.1) as [H|H]; apply str_le_lt_eq in H as [?|Heq];
    try tauto; rewrite Heq; destruct (decide (a.2 ≤ b.2)); [tauto| |tauto|];
    right; right; split; try done; lia.
Qed.

Global Instance item_le_trans : Transitive item_le.
Proof.
  intros a b c. rewrite !item_le_iff.
  intros [Hab|[Hab Hab']] [Hbc|[Hbc Hbc']].
  - left. by eapply str_lt_trans.
  - left. by rewrite <- Hbc.
  - left. by rewrite Hab.
  - right. split; [congruence|lia].
Qed.

Lemma days_ascending_of_sorted (l : list (str * nat)) :
  StronglySorted item_le l → NoDup (l.*1) → days_ascending l.
Proof.
  induction 1 as [|a l Hl IH Ha]; intros Hnd; [constructor|].
  rewrite fmap_cons in Hnd. apply NoDup_cons in Hnd as [Hnotin Hnd].
  constructor; [by apply IH|].
  rewrite Forall_forall in Ha. rewrite Forall_forall. intros b Hb.
  pose proof (Ha b Hb) as Hab. apply item_le_iff in Hab as [?|[Heq _]]; [done|].
  destruct Hnotin. rewrite Heq. by apply list_elem_of_fmap_2.
Qed.

Lemma sorted_items_perm (m : gmap str nat) : sorted_items m ≡ₚ map_to_list m.
Proof. apply merge_sort_Permutation. Qed.

Lemma sorted_items_ascending (m : gmap str nat) :
  days_ascending (sorted_items m).
Proof.
  apply days_ascending_of_sorted.
  - apply (StronglySorted_merge_sort item_le).
  - rewrite sorted_items_perm. apply NoDup_fst_map_to_list.
Qed.

Lemma last_slice_drop {A} n (l : list A) :
  ∃ k, last_slice n l = drop k l
       ∧ length l - k = match n with O => length l | _ => n `min` length l end.
Proof.
  destruct n as [|n]; unfold last_slice.
  - exists 0. split; [done|lia].
  - exists (length l - S n). split; [done|lia].
Qed.

(** X14. The per-day block of a summary lists days of the map with their
    values in strictly ascending order of day; it has [last_n] entries, or
    all of them if the map has fewer (and all of them for [last_n = 0]);
    every day left out is smaller than every day listed. *)
Theorem recent_days (per_day : gmap str nat) (last_n : nat) :
  let recent := last_slice last_n (sorted_items per_day) in
  (∀ day value, (day, value) ∈ recent → per_day !! day = Some value)
  ∧ days_ascending recent
  ∧ length recent
    = match last_n with O => size per_day | _ => last_n `min` size per_day end
  ∧ (∀ day value day' value',
       per_day !! day = Some value → (day, value) ∉ recent →
       (day', value') ∈ recent → str_lt day day' = true).
Proof.
  intros recent. unfold recent.
  destruct (last_slice_drop last_n (sorted_items per_day)) as (k & -> & Hlen).
  pose proof (sorted_items_ascending per_day) as Hsorted.
  rewrite <- (take_drop k (sorted_items per_day)) in Hsorted.
  unfold days_ascending in *. split_and!.
  - intros day value Hin. apply elem_of_map_to_list.
    rewrite <- sorted_items_perm, <- (take_drop k (sorted_items per_day)).
    apply elem_of_app. by right.
  - by eapply StronglySorted_app_1_r.
  - assert (length (sorted_items per_day) = size per_day) as Hsize.
    { unfold sorted_items.
      by rewrite (Permutation_length (merge_sort_Permutation _ _)),
                 length_map_to_list. }
    rewrite length_drop, Hlen. by destruct last_n; rewrite Hsize.
  - intros day value day' value' Hday Hout Hin.
    apply elem_of_map_to_list in Hday. rewrite <- sorted_items_perm in Hday.
    rewrite <- (take_drop k (sorted_items per_day)) in Hday.
    apply elem_of_app in Hday as [Hday|?]; [|done].
    by apply (StronglySorted_app_1_elem_of _ _ _ _ _ Hsorted Hday Hin).
Qed.

Example recent_days_example :
  last_slice 2 (sorted_items {[ py "2024-01-03" := 4%nat; py "2024-01-01" := 2%nat;
                                py "2024-01-02" := 7%nat ]})
  = [(py "2024-01-02", 7%nat); (py "2024-01-03", 4%nat)].
Proof. by vm_compute. Qed.

(** ** What a summary prints *)

Lemma for_each_lines {A} (xs : list A) (line : A → option str)
    (body : A → M unit) :
  (∀ x s, body x s =
          (Ok tt, IO (stdout s ++ option_list (line x)) (stderr s) (opened s))) →
  ∀ s, for_each xs body s =
       (Ok tt, IO (stdout s ++ omap line xs) (stderr s) (opened s)).
Proof.
  intros Hbody. induction xs as [|x xs IH]; intros s.
  - simpl. rewrite app_nil_r. by destruct s.
  - cbn [for_each]. unfold mbind, M_bind. rewrite Hbody, IH.
    cbn [stdout stderr opened]. rewrite <- app_assoc.
    replace (option_list (line x) ++ omap line xs) with (omap line (x :: xs));
      [done|]. simpl. by destruct (line x).
Qed.

(** What [emit_summary] does: it appends its lines to standard output. *)
Lemma emit_summary_run title st last_n s :
  emit_summary title st last_n s =
  (Ok tt, IO (stdout s ++ emit_lines title st last_n) (stderr s) (opened s)).
Proof.
  unfold emit_summary, emit_lines, per_day_lines.
  unfold mbind at 1. unfold M_bind at 1. unfold print at 1. cbv beta iota.
  unfold mbind at 1. unfold M_bind at 1.
  rewrite (for_each_lines summary_keys (field_line st)).
  2:{ intros key s0. unfold field_line.
      destruct (st !! key) as [[]|]; simpl; try done;
        rewrite ?app_nil_r; by destruct s0. }
  cbv beta iota. cbn [stdout stderr opened].
  unfold mbind at 1. unfold M_bind at 1.
  set (per_day_key := if decide (is_Some (st !! py "per_day_counts"))
                      then py "per_day_counts" else py "per_day_rows").
  destruct (st !! per_day_key) as [[| | |per_day]|]; run_io;
    rewrite <- ?app_assoc; try done.
  destruct (decide (per_day = ∅)); run_io; rewrite <- ?app_assoc; [done|].
  set (recent := last_slice last_n (sorted_items per_day)).
  rewrite (for_each_lines recent
             (λ '(day, value),
                Some (py "  " ++ day ++ py ": " ++ str_of_nat value))).
  2:{ intros [day value] s0. done. }
  cbn [stdout stderr opened]. rewrite <- !app_assoc. do 4 f_equal.
  simpl. f_equal. f_equal.
  induction recent as [|[day value] recent IH]; [done|]. simpl. by f_equal.
Qed.




(** ** Files without a dated row *)

Lemma undated_loops (date_col station_col : str) (rows : list row) :
  Forall (λ r, lacks_value (get r date_col)) rows →
  group (date_of date_col) (λ r, get r station_col) rows = ∅
  ∧ omap (date_of date_col) rows = [].
Proof.
  intros Hall.
  assert (dated (date_of date_col) rows = []) as Hdated.
  { rewrite dated_date_of. induction Hall as [|r rows Hr _ IH]; [done|].
    by rewrite filter_cons_False by (by intros []). }
  split.
  - by rewrite <- group_dated, Hdated.
  - by rewrite <- omap_dated, Hdated.
Qed.

Lemma undated_hourly (rows : list row) :
  Forall (λ r, lacks_value (get r (py "fint"))) rows →
  group hour_day (λ r, get r (py "idema")) rows = ∅
  ∧ omap (date_of (py "fint")) rows = [].
Proof.
  intros Hall.
  assert (dated hour_day rows = []) as Hdated.
  { rewrite dated_hour_day. induction Hall as [|r rows Hr _ IH]; [done|].
    by rewrite filter_cons_False by (by intros []). }
  split.
  - by rewrite <- group_dated, Hdated.
  - by rewrite <- omap_dated_hour_day, Hdated.
Qed.

Lemma emit_lines_daily_undated title n last_n :
  emit_lines title (Daily.returned (Daily.Locals ∅ None None n)) last_n
  = [py "=== " ++ title ++ py " ==="; py "rows: " ++ str_of_nat n; []].
Proof. reflexivity. Qed.

Lemma emit_lines_hourly_undated title n last_n :
  emit_lines title (Hourly.returned (Hourly.Locals ∅ None None n)) last_n
  = [py "=== " ++ title ++ py " ==="; py "rows: " ++ str_of_nat n; []].
Proof. reflexivity. Qed.

Lemma emit_lines_forecast_undated title n last_n :
  emit_lines title (Forecast.returned (Forecast.Locals ∅ None None None n)) last_n
  = [py "=== " ++ title ++ py " ==="; py "rows: " ++ str_of_nat n; []].
Proof. reflexivity. Qed.

Lemma dated_undated (col : str) (rows : list row) :
  Forall (λ r, lacks_value (get r col)) rows → dated (date_of col) rows = [].
Proof.
  intros Hall. rewrite dated_date_of.
  induction Hall as [|r rows' Hr _ IH]; [done|].
  by rewrite filter_cons_False by (by intros []).
Qed.

Lemma undated_forecast (rows : list row) :
  Forall (λ r, lacks_value (get r (py "fecha"))) rows →
  Forall (λ r, lacks_value (get r (py "collected_at"))) rows →
  Forecast.loop rows = Forecast.Locals ∅ None None None (length rows).
Proof.
  intros Hfecha Hca. rewrite forecast_loop_fields.
  pose proof (λ col, dated_undated col rows) as Hdated.
  rewrite <- (tally_dated (date_of (py "fecha")) rows).
  rewrite <- (omap_dated (date_of (py "fecha")) rows).
  rewrite <- (omap_dated (date_of (py "collected_at")) rows).
  by rewrite !Hdated.
Qed.

(** X16. A file that is read and has no row with a date (an empty file, a
    file of a header only, rows whose date cell is missing or empty) is
    summarised in three lines: the header of the label, the number of
    rows, a blank line.  This holds for the daily kind, for the hourly
    kind (dates being [fint]), and for the forecast kind when no row has a
    [collected_at] either. *)
Theorem undated_file_prints_three_lines d label path recs s :
  d !! path = Some (File Gzip recs) →
  let rows := dict_rows recs in
  let printed :=
    (Ok tt,
     IO (stdout s ++ [py "=== " ++ label ++ py " ===";
                      py "rows: " ++ str_of_nat (length rows); []])
        (stderr s) (opened s ++ [path])) in
  (startswith (py "Hourly") label = false →
   startswith (py "Forecast") label = false →
   Forall (λ r, lacks_value (get r (py "fecha"))) rows →
   main_step d (label, path) s = printed)
  ∧ (startswith (py "Hourly") label = true →
     Forall (λ r, lacks_value (get r (py "fint"))) rows →
     main_step d (label, path) s = printed)
  ∧ (startswith (py "Hourly") label = false →
     startswith (py "Forecast") label = true →
     Forall (λ r, lacks_value (get r (py "fecha"))) rows →
     Forall (λ r, lacks_value (get r (py "collected_at"))) rows →
     main_step d (label, path) s = printed).
Proof.
  intros Hfile rows printed. unfold printed, main_step, path_exists.
  rewrite Hfile. cbn [negb]. split_and!.
  - intros -> -> Hall. unfold summarise_daily_file, mbind at 1, M_bind at 1.
    rewrite scan_file, Hfile. fold rows. rewrite daily_loop_fields.
    destruct (undated_loops (py "fecha") (py "indicativo") rows Hall) as [-> ->].
    by rewrite emit_summary_run, emit_lines_daily_undated.
  - intros -> Hall. unfold summarise_hourly_file, mbind at 1, M_bind at 1.
    rewrite scan_file, Hfile. fold rows. rewrite hourly_loop_fields.
    destruct (undated_hourly rows Hall) as [-> ->].
    by rewrite emit_summary_run, emit_lines_hourly_undated.
  - intros -> -> Hfecha Hca.
    unfold summarise_forecast, mbind at 1, M_bind at 1.
    rewrite scan_file, Hfile. fold rows.
    rewrite (undated_forecast rows Hfecha Hca).
    by rewrite emit_summary_run, emit_lines_forecast_undated.
Qed.

Lemma undated_file_prints_three_lines_witness :
  main_step {[ py "daily.csv.gz" := File Gzip [[py "fecha"; py "indicativo"]] ]}
            (py "Current Daily", py "daily.csv.gz") io0
  = (Ok tt,
     IO (py <$> ["=== Current Daily ==="; "rows: 0"; EmptyString])
        [] [py "daily.csv.gz"]).
Proof.
  destruct (undated_file_prints_three_lines
           {[ py "daily.csv.gz" := File Gzip [[py "fecha"; py "indicativo"]] ]}
           (py "Current Daily") (py "daily.csv.gz")
           [[py "fecha"; py "indicativo"]] io0) as [Hdaily _];
    [by vm_compute|].
  apply Hdaily; [by vm_compute|by vm_compute|]. vm_compute. constructor.
Defined.

(** ** Headers are not checked *)

Lemma zip_insert_fold_notin (kvs : list (str * option str)) (d : row) key :
  key ∉ kvs.*1 → foldl zip_insert d kvs !! key = d !! key.
Proof.
  revert d. induction kvs as [|[k v] kvs IH]; intros d Hkey; [done|].
  rewrite fmap_cons, not_elem_of_cons in Hkey. destruct Hkey as [Hne Hkey].
  simpl. rewrite IH by done. unfold zip_insert. simpl.
  by rewrite lookup_insert_ne.
Qed.

Lemma restval_fold_notin (keys : list str) (d : row) key :
  key ∉ keys →
  foldl (λ (d : row) k, <[k := None]> d) d keys !! key = d !! key.
Proof.
  revert d. induction keys as [|k keys IH]; intros d Hkey; [done|].
  rewrite not_elem_of_cons in Hkey. destruct Hkey as [Hne Hkey].
  simpl. rewrite IH by done. by rewrite lookup_insert_ne.
Qed.

(** A column that is not in the header has no value in any row. *)
Lemma make_row_get_notin names rec key :
  key ∉ names → get (make_row names rec) key = None.
Proof.
  intros Hkey. unfold get, make_row.
  rewrite restval_fold_notin, zip_insert_fold_notin; [done| |].
  - intros Hin. apply Hkey.
    apply list_elem_of_fmap in Hin as ([k v] & -> & Hin).
    by apply elem_of_zip_l in Hin.
  - intros Hin. apply Hkey. by apply (subseteq_drop (length rec) names).
Qed.

Lemma dict_rows_lack_column names body key :
  key ∉ names →
  Forall (λ r, lacks_value (get r key)) (dict_rows (names :: body)).
Proof.
  intros Hkey. apply Forall_forall. intros r Hr. unfold dict_rows in Hr.
  apply list_elem_of_fmap in Hr as (rec & -> & _).
  left. by apply make_row_get_notin.
Qed.

(** X17. The summarizer does not check headers: in a file that is read
    and whose header lacks the date column, every row counts under [rows]
    (blank records do not), and the summary has no range and no per-day
    entry.  The same holds for an hourly file without a [fint] column. *)
Theorem missing_date_column_is_tolerated d path names body s :
  d !! path = Some (File Gzip (names :: body)) →
  let n := length (filter (λ rec : record, rec ≠ []) body) in
  (∀ date_col station_col,
     date_col ∉ names →
     (summarise_daily_file d path date_col station_col s).1
     = Ok (Daily.returned (Daily.Locals ∅ None None n)))
  ∧ (py "fint" ∉ names →
     (summarise_hourly_file d path s).1
     = Ok (Hourly.returned (Hourly.Locals ∅ None None n))).
Proof.
  intros Hfile n.
  assert (length (dict_rows (names :: body)) = n) as Hn
    by (unfold dict_rows; by rewrite length_fmap).
  split.
  - intros date_col station_col Hcol%(dict_rows_lack_column _ body).
    unfold summarise_daily_file. rewrite scan_file, Hfile. cbn [fst].
    rewrite daily_loop_fields, Hn.
    by destruct (undated_loops date_col station_col _ Hcol) as [-> ->].
  - intros Hcol%(dict_rows_lack_column _ body).
    unfold summarise_hourly_file. rewrite scan_file, Hfile. cbn [fst].
    rewrite hourly_loop_fields, Hn.
    by destruct (undated_hourly _ Hcol) as [-> ->].
Qed.

Lemma missing_date_column_is_tolerated_witness :
  (summarise_daily_file hourly_example_disk (py "hourly.csv.gz")
     (py "fecha") (py "indicativo") io0).1
  = Ok (Daily.returned (Daily.Locals ∅ None None 4)).
Proof.
  destruct (missing_date_column_is_tolerated hourly_example_disk
              (py "hourly.csv.gz") [py "idema"; py "fint"; py "ta"]
              (tail hourly_example_records) io0) as [Hdaily _];
    [by vm_compute|].
  apply Hdaily. intros Hin%list_elem_of_In. vm_compute in Hin.
  intuition discriminate.
Defined.
End SummarizeExtras.
